(** * NeuroView backend: the brain-scan inference path

    A shallow embedding of [app/services/ml_prediction_service.py] (model
    loading, preprocessing, the manual forward pass and the result
    formatting) and of the prediction entry points of
    [app/controllers/image_controller.py], together with the properties the
    specification states about them.

    Conventions of the embedding.
    - Numbers are real numbers ([R]): the development states what the code
      computes in exact arithmetic; rounding, [inf] and [nan] of IEEE floats
      are not modelled.
    - Python exceptions are values of type [exn]; code that may raise lives
      in the error monad [py := sum exn] and [try/except] is [catch].
    - A numpy array of two dimensions is a shape and an indexing function.
    - Library code the repository calls but does not contain (the image
      decoder, the unpickler, the float formatter, the HTTP client) is a
      field of the classes [Runtime] and [Http]. *)

From Stdlib Require Import Reals Lra Lia List String Ascii Arith Bool ZArith DecimalString.
From ExtLib Require Import Structures.Monad Structures.MonadExc Data.Monads.EitherMonad.
Import ListNotations MonadNotation.
Local Open Scope monad_scope.

(* ===================================================================== *)
(** ** Python values and exceptions *)
(* ===================================================================== *)

Module Py.

(** The exception classes this code path can raise; every one of them is a
    subclass of Python's [Exception], which is what the handlers catch. *)
Inductive exn_class : Type :=
| Exception
| ValueError
| TypeError
| KeyError
| IndexError
| AttributeError
| FileNotFoundError
| OSError
| UnpicklingError.

(** An exception object: its class and [str(e)]. *)
Record exn : Type := mkExn { exn_cls : exn_class; exn_str : string }.

Definition py : Type -> Type := sum exn.

Definition exn_class_eqb (a b : exn_class) : bool :=
  match a, b with
  | Exception, Exception | ValueError, ValueError | TypeError, TypeError
  | KeyError, KeyError | IndexError, IndexError
  | AttributeError, AttributeError
  | FileNotFoundError, FileNotFoundError | OSError, OSError
  | UnpicklingError, UnpicklingError => true
  | _, _ => false
  end.

(** [isinstance(e, C)] for the classes above: [FileNotFoundError] is a
    subclass of [OSError], everything is an [Exception]. *)
Definition isinstance (e : exn) (c : exn_class) : bool :=
  match c with
  | Exception => true
  | OSError => match exn_cls e with
               | OSError | FileNotFoundError => true
               | _ => false
               end
  | _ => exn_class_eqb (exn_cls e) c
  end.

(** A [dict] with string keys, in insertion order. *)
Fixpoint dict_get {V : Type} (d : list (string * V)) (k : string) : option V :=
  match d with
  | [] => None
  | (k', v) :: d' => if String.eqb k k' then Some v else dict_get d' k
  end.

(** [repr] of a string key, as [str(KeyError(k))] prints it. *)
Definition repr_str (k : string) : string := ("'" ++ k ++ "'")%string.

End Py.
Import Py.

(* ===================================================================== *)
(** ** numpy arrays of two dimensions *)
(* ===================================================================== *)

Module Np.
Local Open Scope R_scope.

Record ndarray : Type := mkArr {
  nrows : nat;
  ncols : nat;
  item : nat -> nat -> R          (* [a[i][j]], read for [i < nrows], [j < ncols] *)
}.

Definition shape (A : ndarray) : nat * nat := (nrows A, ncols A).

(** Sum of [f 0 .. f (n-1)]. *)
Definition rsum (f : nat -> R) (n : nat) : R :=
  fold_right Rplus 0 (map f (seq 0 n)).

(** Maximum of [f 0 .. f n]. *)
Fixpoint rmax_upto (f : nat -> R) (n : nat) : R :=
  match n with
  | O => f O
  | S k => Rmax (rmax_upto f k) (f (S k))
  end.

(** Index of the first maximum among [f 0 .. f n]: a left-to-right scan that
    moves only on a strictly larger value. *)
Fixpoint argmax_upto (f : nat -> R) (n : nat) : nat :=
  match n with
  | O => O
  | S k => let i := argmax_upto f k in
           if Rlt_dec (f i) (f (S k)) then S k else i
  end.

Definition matmul_error : exn :=
  mkExn ValueError "matmul: Input operand 1 has a mismatch in its core dimension 0".

Definition broadcast_error : exn :=
  mkExn ValueError "operands could not be broadcast together".

Definition empty_reduction_error : exn :=
  mkExn ValueError "zero-size array to reduction operation maximum which has no identity".

Definition empty_argmax_error : exn :=
  mkExn ValueError "attempt to get argmax of an empty sequence".

(** [A @ B]: the inner dimensions must agree, nothing is broadcast. *)
Definition matmul (A B : ndarray) : py ndarray :=
  if Nat.eqb (ncols A) (nrows B)
  then ret (mkArr (nrows A) (ncols B)
              (fun i j => rsum (fun k => item A i k * item B k j) (ncols A)))
  else raise matmul_error.

(** Broadcasting of one dimension: equal sizes, or one of them is 1. *)
Definition bdim (a b : nat) : option nat :=
  if Nat.eqb a b then Some a
  else if Nat.eqb a 1 then Some b
  else if Nat.eqb b 1 then Some a
  else None.

(** The index read in an operand whose dimension has size [n]. *)
Definition bidx (n i : nat) : nat := if Nat.eqb n 1 then O else i.

(** An elementwise binary operator with numpy broadcasting. *)
Definition broadcast2 (op : R -> R -> R) (A B : ndarray) : py ndarray :=
  match bdim (nrows A) (nrows B), bdim (ncols A) (ncols B) with
  | Some r, Some c =>
      ret (mkArr r c
             (fun i j => op (item A (bidx (nrows A) i) (bidx (ncols A) j))
                            (item B (bidx (nrows B) i) (bidx (ncols B) j))))
  | _, _ => raise broadcast_error
  end.

Definition add : ndarray -> ndarray -> py ndarray := broadcast2 Rplus.
Definition subtract : ndarray -> ndarray -> py ndarray := broadcast2 Rminus.
Definition divide : ndarray -> ndarray -> py ndarray := broadcast2 Rdiv.

(** An elementwise unary function. *)
Definition amap (f : R -> R) (A : ndarray) : ndarray :=
  mkArr (nrows A) (ncols A) (fun i j => f (item A i j)).

Definition np_exp : ndarray -> ndarray := amap exp.

(** [np.max(x, axis=1, keepdims=True)]. *)
Definition max_axis1 (A : ndarray) : py ndarray :=
  if Nat.eqb (ncols A) 0 then raise empty_reduction_error
  else ret (mkArr (nrows A) 1 (fun i _ => rmax_upto (item A i) (ncols A - 1))).

(** [np.sum(x, axis=1, keepdims=True)]. *)
Definition sum_axis1 (A : ndarray) : ndarray :=
  mkArr (nrows A) 1 (fun i _ => rsum (item A i) (ncols A)).

(** Element [k] of the array read in row-major order. *)
Definition flat (A : ndarray) (k : nat) : R :=
  item A (k / ncols A) (k mod ncols A).

Definition size (A : ndarray) : nat := (nrows A * ncols A)%nat.

(** [np.argmax(a)] and [np.max(a)] without an axis work on the flattened
    array. *)
Definition argmax (A : ndarray) : py nat :=
  if Nat.eqb (size A) 0 then raise empty_argmax_error
  else ret (argmax_upto (flat A) (size A - 1)).

Definition amax (A : ndarray) : py R :=
  if Nat.eqb (size A) 0 then raise empty_reduction_error
  else ret (rmax_upto (flat A) (size A - 1)).

Definition row (A : ndarray) (i : nat) : list R :=
  map (item A i) (seq 0 (ncols A)).

Definition tolist (A : ndarray) : list (list R) :=
  map (row A) (seq 0 (nrows A)).

Definition index_error : exn :=
  mkExn IndexError "index is out of bounds".

(** [a[i][j]] with non-negative indices. *)
Definition getitem2 (A : ndarray) (i j : nat) : py R :=
  if Nat.ltb i (nrows A)
  then if Nat.ltb j (ncols A) then ret (item A i j) else raise index_error
  else raise index_error.

(** [a.tolist()[0]]. *)
Definition tolist_0 (A : ndarray) : py (list R) :=
  match tolist A with
  | r :: _ => ret r
  | [] => raise (mkExn IndexError "list index out of range")
  end.

End Np.
Import Np.

(** One-dimensional arrays, as [flatten] produces them. *)
Module Np1.

Record array1 : Type := mkArr1 { len : nat; elt : nat -> R }.

(** [a.flatten()]: row-major order. *)
Definition flatten (A : ndarray) : array1 := mkArr1 (size A) (flat A).

(** [a.astype(np.float32)] of an array of 8-bit pixel values: every such
    value is a 32-bit float, so the values do not change. *)
Definition astype_float32 (v : array1) : array1 := v.

(** [a.reshape(1, -1)]. *)
Definition reshape_1_m1 (v : array1) : ndarray :=
  mkArr 1 (len v) (fun _ j => elt v j).

End Np1.
Import Np1.

(* ===================================================================== *)
(** ** The libraries around the service *)
(* ===================================================================== *)

(** A decoded (or lazily decoded) picture: PIL reads the header in
    [Image.open] and the pixel data on first use, so reading the pixels may
    still raise. A pixel is the list of its band values. *)
Record Image : Type := mkImage {
  mode : string;
  width : nat;
  height : nat;
  load : py (nat -> nat -> list nat)     (* pixel at column [x], line [y] *)
}.

(** Modelled from the spec: the scaler stored in the model artifact
    ([ml_models/best_brain_nn_model.pkl], which is not among the sources) is
    an object with per-dimension mean and scale; its [transform] refuses an
    input whose number of columns differs from the dimension it was fitted
    on and otherwise computes [(raw - mean) / scale] per dimension. *)
Record StandardScaler : Type := mkScaler {
  n_features_in_ : nat;
  mean_ : nat -> R;
  scale_ : nat -> R
}.

Definition transform (sc : StandardScaler) (X : ndarray) : py ndarray :=
  if Nat.eqb (ncols X) (n_features_in_ sc)
  then ret (mkArr (nrows X) (ncols X)
              (fun i j => ((item X i j - mean_ sc j) / scale_ sc j)%R))
  else raise (mkExn ValueError
                "X has a different number of features than StandardScaler is expecting as input.").

(** What the unpickled artifact may hold under a key. *)
Inductive pyval : Type :=
| VArr (a : ndarray)
| VScaler (s : StandardScaler)
| VOther.

(** What [pickle.load] may return. *)
Inductive pyobj : Type :=
| PyNone
| PyDict (d : list (string * pyval))
| PyOther.

(** The state of the artifact path on disk. *)
Inductive file : Type :=
| Absent
| Unreadable (why : string)
| Content (bytes : string).

(** The code outside the repository that the service calls. *)
Class Runtime : Type := {
  (** [Image.open(io.BytesIO(b))]. *)
  Image_open : string -> py Image;
  (** Gray level of a pixel of the given mode, as [convert("L")] computes it. *)
  luminance : string -> list nat -> nat;
  (** Pixels of the picture resized with the image library's default filter:
      source width, height and pixels, target width and height. *)
  resample : nat -> nat -> (nat -> nat -> list nat) -> nat -> nat ->
             nat -> nat -> list nat;
  (** [f"{x:.2%}"]. *)
  format_percent : R -> string;
  (** Absolute path of [../ml_models/best_brain_nn_model.pkl]. *)
  model_path : string;
  (** The file system at the time the service module is imported. *)
  fs : string -> file;
  (** [pickle.load] on the bytes of a file. *)
  pickle_load : string -> py pyobj
}.

Module PIL.
Section PIL.
Context {rt : Runtime}.

(** [img.convert("L")]. *)
Definition convert_L (img : Image) : py Image :=
  px <- load img ;;
  ret (mkImage "L" (width img) (height img)
         (inr (fun x y => [luminance (mode img) (px x y)]))).

(** [img.resize((w, h))]. *)
Definition resize (img : Image) (w h : nat) : py Image :=
  px <- load img ;;
  ret (mkImage (mode img) w h
         (inr (resample (width img) (height img) px w h))).

(** [np.array(img)] for a single-band picture: one row per line. *)
Definition np_array (img : Image) : py ndarray :=
  px <- load img ;;
  ret (mkArr (height img) (width img) (fun i j => INR (hd O (px j i)))).

End PIL.
End PIL.

(** [open(path, "rb")] followed by reading the file. *)
Definition open_rb {rt : Runtime} (path : string) : py string :=
  match fs path with
  | Absent => raise (mkExn FileNotFoundError "[Errno 2] No such file or directory")
  | Unreadable why => raise (mkExn OSError why)
  | Content b => ret b
  end.

(* ===================================================================== *)
(** ** [app/services/ml_prediction_service.py] *)
(* ===================================================================== *)

Module MLPredictionService.
Section Service.
Context {rt : Runtime}.

(** What [predict_brain_tumor] accepts: the annotation says bytes or a PIL
    picture, Python lets a caller pass anything else; of such an object only
    its truth value matters (to the controller). An object whose truth test
    itself raises (a numpy array of several elements) is not among these
    values. *)
Inductive image_data : Type :=
| Bytes (b : string)
| Picture (img : Image)
| Unsupported (truth : bool).

(** The service object. [label_map] is assigned once in [__init__], from a
    literal, and never again; it is the constant below. *)
Record MLPredictionService : Type := mkService { model : pyobj }.

Definition label_map : list (nat * string) :=
  [(0, "glioma"); (1, "meningioma"); (2, "notumor"); (3, "pituitary")]%string.

(** [self.label_map[i]]. *)
Fixpoint label_get (m : list (nat * string)) (i : nat) : py string :=
  match m with
  | [] => raise (mkExn KeyError (NilZero.string_of_uint (Nat.to_uint i)))
  | (k, v) :: m' => if Nat.eqb i k then ret v else label_get m' i
  end.

(** [self.model[key]]. *)
Definition subscript (m : pyobj) (key : string) : py pyval :=
  match m with
  | PyNone => raise (mkExn TypeError "'NoneType' object is not subscriptable")
  | PyOther => raise (mkExn TypeError "object is not subscriptable")
  | PyDict d =>
      match dict_get d key with
      | Some v => ret v
      | None => raise (mkExn KeyError (repr_str key))
      end
  end.

Definition operand_error : exn :=
  mkExn TypeError "unsupported operand type(s)".

(** [X @ w] and [X + b] where the right operand comes from the artifact. *)
Definition np_matmul (X : ndarray) (w : pyval) : py ndarray :=
  match w with
  | VArr W => matmul X W
  | _ => raise operand_error
  end.

Definition np_add (X : ndarray) (b : pyval) : py ndarray :=
  match b with
  | VArr B => add X B
  | _ => raise operand_error
  end.

(** [scaler.transform(X)]. *)
Definition scaler_transform (scaler : pyval) (X : ndarray) : py ndarray :=
  match scaler with
  | VScaler sc => transform sc X
  | _ => raise (mkExn AttributeError "object has no attribute 'transform'")
  end.

Definition _load_model (self : MLPredictionService) : py MLPredictionService :=
  catch
    (f <- open_rb model_path ;;
     m <- pickle_load f ;;
     ret (mkService m))
    (fun e =>
       if isinstance e FileNotFoundError
       then raise (mkExn Exception
                     "ML model file not found. Please ensure the model is properly installed.")
       else raise (mkExn Exception ("Failed to load ML model: " ++ exn_str e)%string)).

Definition __init__ : py MLPredictionService :=
  let self := mkService PyNone in
  _load_model self.

Definition _leaky_relu (x : ndarray) (alpha : R) : ndarray :=
  amap (fun v => if Rgt_dec v 0 then v else (alpha * v)%R) x.

Definition _softmax (x : ndarray) : py ndarray :=
  m <- max_axis1 x ;;
  d <- subtract x m ;;
  let exp_vals := np_exp d in
  divide exp_vals (sum_axis1 exp_vals).

Definition _forward_pass (self : MLPredictionService) (X : ndarray) : py ndarray :=
  match model self with
  | PyNone => raise (mkExn Exception "Model not loaded. Cannot perform prediction.")
  | _ =>
      W1 <- subscript (model self) "W1" ;;
      b1 <- subscript (model self) "b1" ;;
      W2 <- subscript (model self) "W2" ;;
      b2 <- subscript (model self) "b2" ;;
      W3 <- subscript (model self) "W3" ;;
      b3 <- subscript (model self) "b3" ;;
      XW1 <- np_matmul X W1 ;;
      Z1 <- np_add XW1 b1 ;;
      let A1 := _leaky_relu Z1 (1 / 100) in
      AW2 <- np_matmul A1 W2 ;;
      Z2 <- np_add AW2 b2 ;;
      let A2 := _leaky_relu Z2 (1 / 100) in
      AW3 <- np_matmul A2 W3 ;;
      Z3 <- np_add AW3 b3 ;;
      A3 <- _softmax Z3 ;;
      ret A3
  end.

Definition _preprocess_image (self : MLPredictionService) (data : image_data)
  : py ndarray :=
  catch
    (img <- match data with
            | Bytes b => Image_open b
            | Picture img => ret img
            | Unsupported _ =>
                raise (mkExn ValueError
                         "Invalid image data type. Expected bytes or PIL Image.")
            end ;;
     img <- PIL.convert_L img ;;
     img_resized <- PIL.resize img 32 32 ;;
     arr <- PIL.np_array img_resized ;;
     let img_array := astype_float32 (flatten arr) in
     scaler <- subscript (model self) "scaler" ;;
     img_scaled <- scaler_transform scaler (reshape_1_m1 img_array) ;;
     ret img_scaled)
    (fun e => raise (mkExn Exception ("Image preprocessing failed: " ++ exn_str e)%string)).

(** The dictionary [predict_brain_tumor] returns. A key that one of the two
    shapes of the dictionary lacks ([error], [message]) is [None] there;
    [predicted_class] and [tumor_type] are [None] where Python has [None]. *)
Record PredictionResult : Type := mkResult {
  success : bool;
  error : option string;
  predicted_class : option nat;
  tumor_type : option string;
  confidence : R;
  probabilities : list R;
  class_probabilities : list (string * R);
  message : option string
}.

(** [d[k] = v] on a dictionary in insertion order. *)
Fixpoint dict_set (d : list (string * R)) (k : string) (v : R) : list (string * R) :=
  match d with
  | [] => [(k, v)]
  | (k', v') :: d' =>
      if String.eqb k k' then (k', v) :: d' else (k', v') :: dict_set d' k v
  end.

(** [{self.label_map[i]: float(probabilities[0][i]) for i in idx}], started
    from the entries already made. *)
Fixpoint class_probabilities_of (probs : ndarray) (idx : list nat)
    (acc : list (string * R)) : py (list (string * R)) :=
  match idx with
  | [] => ret acc
  | i :: rest =>
      k <- label_get label_map i ;;
      v <- getitem2 probs 0 i ;;
      class_probabilities_of probs rest (dict_set acc k v)
  end.

Definition predict_brain_tumor (self : MLPredictionService) (data : image_data)
  : py PredictionResult :=
  catch
    (processed_image <- _preprocess_image self data ;;
     probs <- _forward_pass self processed_image ;;
     predicted <- argmax probs ;;
     tumor <- label_get label_map predicted ;;
     conf <- amax probs ;;
     class_probs <- class_probabilities_of probs (seq 0 (List.length label_map)) [] ;;
     probs0 <- tolist_0 probs ;;
     ret (mkResult true None (Some predicted) (Some tumor) conf probs0 class_probs
            (Some ("Brain scan classified as: " ++ tumor ++ " (confidence: "
                   ++ format_percent conf ++ ")")%string)))
    (fun e =>
       ret (mkResult false (Some ("Prediction failed: " ++ exn_str e)%string)
              None None 0%R [] [] None)).

(** The dictionary [get_model_info] returns. *)
Record ModelInfo : Type := mkInfo {
  loaded : bool;
  info_error : option string;
  model_type : option string;
  input_shape : option string;
  output_classes : option nat;
  class_labels : list string;
  description : option string
}.

Definition get_model_info (self : MLPredictionService) : ModelInfo :=
  match model self with
  | PyNone => mkInfo false (Some "Model not loaded"%string) None None None [] None
  | _ =>
      mkInfo true None (Some "Neural Network"%string) (Some "32x32 grayscale"%string)
        (Some (List.length label_map)) (map snd label_map)
        (Some "Brain tumor classification model trained on medical imaging data"%string)
  end.

(** The module-level [ml_service = MLPredictionService()]: importing the
    module runs the constructor, outside of any handler. *)
Definition ml_service : py MLPredictionService := __init__.

End Service.
End MLPredictionService.

(* ===================================================================== *)
(** ** [app/models/repositories/image_repository.py] and
       [app/controllers/image_controller.py] *)
(* ===================================================================== *)

(** A JSON document as [response.json()] returns it; [JNull] is [None]. *)
#[warnings="-register-all"]
Inductive json : Type :=
| JNull
| JBool (b : bool)
| JNum (z : Z)
| JStr (s : string)
| JList (l : list json)
| JObj (o : list (string * json)).

(** Python's truth value of such a document. *)
Definition truthy (v : json) : bool :=
  match v with
  | JNull => false
  | JBool b => b
  | JNum z => negb (Z.eqb z 0)
  | JStr s => negb (String.eqb s "")
  | JList l => match l with [] => false | _ => true end
  | JObj o => match o with [] => false | _ => true end
  end.

Record Response : Type := mkResponse {
  status_code : nat;
  response_json : py json          (* [response.json()], which may raise *)
}.

(** The HTTP client and the REST endpoint it is pointed at. *)
Class Http : Type := {
  base_url : string;
  (** [requests.patch(url, headers=..., json={"information": data})]. *)
  requests_patch :
    string -> MLPredictionService.PredictionResult -> py Response
}.

(** The other verbs of the HTTP client, as the catalog code calls them. *)
Class Rest : Type := {
  (** [requests.post(url, headers=..., json=data)]. *)
  requests_post : string -> json -> py Response;
  (** [requests.get(url, headers=...)]. *)
  requests_get : string -> py Response
}.

(** Built-in and library functions on Python values that the controllers
    call: they are taken as they are, nothing is assumed about them. *)
Class Builtins : Type := {
  (** [s.strip()]. *)
  str_strip : string -> string;
  (** [s.lower()]. *)
  str_lower : string -> string;
  (** [len(s)] of a string. *)
  str_len : string -> nat;
  (** [werkzeug.utils.secure_filename(name)]. *)
  secure_filename : string -> string;
  (** [uuid.uuid4().hex] as drawn for the call at hand. *)
  uuid4_hex : string;
  (** [", ".join(allowed_extensions)], in the iteration order of the set. *)
  joined_allowed_extensions : string
}.

(** The answer of the object storage to an upload. *)
Record StorageResponse : Type := mkStorageResponse {
  storage_status : nat;
  storage_text : string
}.

(** The object storage behind [UploadController]. *)
Class Storage : Type := {
  (** [f"{os.getenv('SUPABASE_URL')}"]. *)
  supabase_url : string;
  (** [requests.post(url, headers={... 'Content-Type': t}, data=d)]. *)
  requests_post_data : string -> string -> string -> py StorageResponse;
  (** [requests.delete(url, headers=...)]; the response is not looked at. *)
  requests_delete : string -> py unit
}.

(** [v[0]] on a JSON document that passed a truth test: the first element
    of a list, the first character of a string (through [first_char]); a
    dictionary has no key [0] and the other values cannot be subscripted. *)
Definition json_first (first_char : string -> string) (v : json) : py json :=
  match v with
  | JList (first :: _) => ret first
  | JList [] => raise (mkExn IndexError "list index out of range")
  | JStr s => ret (JStr (first_char s))
  | JObj _ => raise (mkExn KeyError "0")
  | _ => raise (mkExn TypeError "object is not subscriptable")
  end.

(** The first character of a non-empty string. *)
Definition first_char (s : string) : string :=
  match s with
  | EmptyString => EmptyString
  | String c _ => String c EmptyString
  end.

(** [d.get(key, '')] on the parsed request body: only a dictionary has
    [get]. The list of a [JObj] holds every key once, as the parser leaves
    it. *)
Definition json_get (d : json) (key : string) : py json :=
  match d with
  | JObj o => match dict_get o key with
              | Some v => ret v
              | None => ret (JStr "")
              end
  | _ => raise (mkExn AttributeError "object has no attribute 'get'")
  end.

(** [v.strip()]: only a string has [strip]. *)
Definition json_strip {bi : Builtins} (v : json) : py string :=
  match v with
  | JStr s => ret (str_strip s)
  | _ => raise (mkExn AttributeError "object has no attribute 'strip'")
  end.

(** [len(v)]. *)
Definition json_len {bi : Builtins} (v : json) : py nat :=
  match v with
  | JList l => ret (List.length l)
  | JObj o => ret (List.length o)
  | JStr s => ret (str_len s)
  | _ => raise (mkExn TypeError "object has no len()")
  end.

Module ImageRepository.
Section Repository.
Context {http : Http}.

(** Returns the updated record, or [None]; never raises. *)
Definition update_image_information (image_id : string)
    (prediction_data : MLPredictionService.PredictionResult) : py json :=
  catch
    (response <- requests_patch (base_url ++ "/images?id=eq." ++ image_id)%string
                   prediction_data ;;
     if Nat.eqb (status_code response) 200
     then updated_data <- response_json response ;;
          match updated_data with
          | JList (first :: _) => ret first
          | _ => ret updated_data
          end
     else ret JNull)
    (fun _ => ret JNull).

Context {rest : Rest}.

(** Returns the created record, or [None]; never raises. *)
Definition create_image (name url : string) : py json :=
  catch
    (response <- requests_post (base_url ++ "/images")%string
                   (JObj [("name", JStr name); ("url", JStr url)]%string) ;;
     if Nat.eqb (status_code response) 201
     then created_data <- response_json response ;;
          match created_data with
          | JList (first :: _) => ret first
          | _ => ret created_data
          end
     else ret JNull)
    (fun _ => ret JNull).

(** Returns what the backend sent, or the empty list; never raises. *)
Definition get_all_images : py json :=
  catch
    (response <- requests_get
                   (base_url ++ "/images?select=*&order=uploaded_at.desc")%string ;;
     if Nat.eqb (status_code response) 200
     then response_json response
     else ret (JList []))
    (fun _ => ret (JList [])).

(** Returns the first record the backend sent, or [None]; never raises. *)
Definition get_image_by_id (image_id : string) : py json :=
  catch
    (response <- requests_get
                   (base_url ++ "/images?select=*&id=eq." ++ image_id)%string ;;
     if Nat.eqb (status_code response) 200
     then data <- response_json response ;;
          if truthy data then json_first first_char data else ret JNull
     else ret JNull)
    (fun _ => ret JNull).

End Repository.
End ImageRepository.

(** [app/models/image_model.py]: the same operations as static methods; the
    upload controller uses this one. *)
Module ImageModel.
Section Model.
Context {http : Http} {rest : Rest}.

Definition create_image (name url : string) : py json :=
  catch
    (response <- requests_post (base_url ++ "/images")%string
                   (JObj [("name", JStr name); ("url", JStr url)]%string) ;;
     if Nat.eqb (status_code response) 201
     then created_data <- response_json response ;;
          match created_data with
          | JList (first :: _) => ret first
          | _ => ret created_data
          end
     else ret JNull)
    (fun _ => ret JNull).

End Model.
End ImageModel.

Module ImageController.
Section Controller.
Context {rt : Runtime} {http : Http}.
Import MLPredictionService.

(** The body of a controller answer; a key the answer lacks is [None]. *)
Record Answer : Type := mkAnswer {
  a_message : option string;
  a_error : option string;
  a_success : bool;
  a_data : option PredictionResult;
  a_updated_image : option json;
  a_warning : option string
}.

(** [not image_data] and [not image_id] test these truth values. *)
Definition data_truthy (d : image_data) : bool :=
  match d with
  | Bytes b => negb (String.eqb b "")
  | Picture _ => true
  | Unsupported t => t
  end.

Definition id_truthy (image_id : option string) : bool :=
  match image_id with
  | None => false
  | Some s => negb (String.eqb s "")
  end.

Definition failure (msg : string) : Answer :=
  mkAnswer None (Some msg) false None None None.

(** [prediction_result.get('error', 'Prediction failed')]. *)
Definition error_of (r : PredictionResult) : string :=
  match error r with
  | Some e => e
  | None => "Prediction failed"
  end.

Definition predict_brain_tumor (ml_service : MLPredictionService)
    (data : image_data) : py (Answer * nat) :=
  if negb (data_truthy data) then ret (failure "Image data is required", 400)
  else
      catch
        (prediction_result <- MLPredictionService.predict_brain_tumor ml_service data ;;
         if success prediction_result
         then ret (mkAnswer (Some "Brain tumor prediction completed successfully"%string)
                     None true (Some prediction_result) None None, 200)
         else ret (failure (error_of prediction_result), 500))
        (fun e => ret (failure ("Internal error during prediction: " ++ exn_str e)%string, 500)).

Definition predict_and_save_brain_tumor (ml_service : MLPredictionService)
    (data : image_data) (image_id : option string) : py (Answer * nat) :=
  if negb (data_truthy data) then ret (failure "Image data is required", 400)
  else if negb (id_truthy image_id) then ret (failure "Image ID is required", 400)
  else
      catch
        (prediction_result <- MLPredictionService.predict_brain_tumor ml_service data ;;
         if success prediction_result
         then
           updated_image <- ImageRepository.update_image_information
                              (match image_id with Some s => s | None => "" end)%string
                              prediction_result ;;
           if truthy updated_image
           then ret (mkAnswer
                       (Some "Brain tumor prediction completed and saved successfully"%string)
                       None true (Some prediction_result) (Some updated_image) None, 200)
           else ret (mkAnswer
                       (Some "Brain tumor prediction completed but failed to save to database"%string)
                       None true (Some prediction_result) None
                       (Some "Prediction results could not be saved to database"%string), 200)
         else ret (failure (error_of prediction_result), 500))
        (fun e => ret (failure ("Internal error during prediction: " ++ exn_str e)%string, 500)).

Context {rest : Rest} {bi : Builtins}.

(** The body of an answer about the catalog. *)
Record CatalogAnswer : Type := mkCatalogAnswer {
  c_message : option string;
  c_error : option string;
  c_success : bool;
  c_data : option json;
  c_count : option nat
}.

Definition catalog_failure (msg : string) : CatalogAnswer :=
  mkCatalogAnswer None (Some msg) false None None.

Definition placeholder_url : string :=
  "https://via.placeholder.com/400x300?text=No+Image".

(** No handler here: an exception of [get] or [strip] leaves the function. *)
Definition create_image (data : json) : py (CatalogAnswer * nat) :=
  if negb (truthy data) then ret (catalog_failure "Request body is required", 400)
  else
    name_value <- json_get data "name" ;;
    name <- json_strip name_value ;;
    url_value <- json_get data "url" ;;
    url <- json_strip url_value ;;
    if String.eqb name "" then ret (catalog_failure "Image name is required", 400)
    else
      let url := if String.eqb url "" then placeholder_url else url in
      created_image <- ImageRepository.create_image name url ;;
      if truthy created_image
      then ret (mkCatalogAnswer (Some "Image created successfully"%string) None true
                  (Some created_image) None, 201)
      else ret (catalog_failure "Failed to create image. Please try again.", 500).

Definition get_all_images : py (CatalogAnswer * nat) :=
  images <- ImageRepository.get_all_images ;;
  count <- json_len images ;;
  ret (mkCatalogAnswer (Some "Images retrieved successfully"%string) None true
         (Some images) (Some count), 200).

Definition get_image_by_id (image_id : option string) : py (CatalogAnswer * nat) :=
  if negb (id_truthy image_id) then ret (catalog_failure "Image ID is required", 400)
  else
    image <- ImageRepository.get_image_by_id
               (match image_id with Some s => s | None => "" end)%string ;;
    if truthy image
    then ret (mkCatalogAnswer (Some "Image retrieved successfully"%string) None true
                (Some image) None, 200)
    else ret (catalog_failure "Image not found", 404).

End Controller.
End ImageController.

(* ===================================================================== *)
(** ** [app/controllers/upload_controller.py] *)
(* ===================================================================== *)

(** An uploaded file as Flask hands it over; its truth value is that of its
    file name. *)
Record FileStorage : Type := mkFile {
  filename : string;
  content_type : option string;
  stream : string                  (* what [file.read()] returns *)
}.

Module UploadController.
Section Upload.
Context {http : Http} {rest : Rest} {bi : Builtins} {st : Storage}.

Definition bucket_name : string := "brain-images".

Definition allowed_extensions : list string :=
  ["png"; "jpg"; "jpeg"; "gif"; "webp"]%string.

(** [name.rsplit('.', 1)[1]] when ['.' in name]: what follows the last dot. *)
Fixpoint after_last_dot (name : string) : option string :=
  match name with
  | EmptyString => None
  | String c rest =>
      match after_last_dot rest with
      | Some ext => Some ext
      | None => if Ascii.eqb c "."%char then Some rest else None
      end
  end.

Definition file_extension (name : string) : string :=
  match after_last_dot name with
  | Some ext => str_lower ext
  | None => ""%string
  end.

Definition is_allowed (ext : string) : bool :=
  existsb (String.eqb ext) allowed_extensions.

(** The body of an upload answer. *)
Record UploadAnswer : Type := mkUploadAnswer {
  u_message : option string;
  u_error : option string;
  u_success : bool;
  u_data : option json
}.

Definition upload_failure (msg : string) : UploadAnswer :=
  mkUploadAnswer None (Some msg) false None.

Definition object_url (unique_filename : string) : string :=
  (supabase_url ++ "/storage/v1/object/" ++ bucket_name ++ "/" ++ unique_filename)%string.

Definition public_object_url (unique_filename : string) : string :=
  (supabase_url ++ "/storage/v1/object/public/" ++ bucket_name ++ "/"
   ++ unique_filename)%string.

Definition upload_image (file : option FileStorage) (name : option string)
  : py (UploadAnswer * nat) :=
  catch
    (match file with
     | None => ret (upload_failure "No file provided", 400)
     | Some file =>
       if String.eqb (filename file) ""
       then ret (upload_failure "No file provided", 400)
       else
         if negb (is_allowed (file_extension (filename file)))
         then ret (upload_failure
                     ("File type not allowed. Supported formats: "
                      ++ joined_allowed_extensions)%string, 400)
         else
           let secure_name := secure_filename (filename file) in
           let unique_filename := (uuid4_hex ++ "-" ++ secure_name)%string in
           let file_data := stream file in
           storage_response <-
             requests_post_data (object_url unique_filename)
               (match content_type file with
                | Some t => if String.eqb t "" then "application/octet-stream" else t
                | None => "application/octet-stream"
                end)%string
               file_data ;;
           if negb (Nat.eqb (storage_status storage_response) 200
                    || Nat.eqb (storage_status storage_response) 201)
           then ret (upload_failure
                       ("Failed to upload file: " ++ storage_text storage_response)%string,
                     500)
           else
             let public_url := public_object_url unique_filename in
             let image_name := match name with
                               | Some n => if String.eqb n "" then secure_name else n
                               | None => secure_name
                               end in
             created_image <- ImageModel.create_image image_name public_url ;;
             if truthy created_image
             then ret (mkUploadAnswer
                         (Some "Image uploaded and created successfully"%string)
                         None true (Some created_image), 201)
             else
               catch (requests_delete (object_url unique_filename))
                     (fun _ => ret tt) ;;
               ret (upload_failure "Failed to create image record in database", 500)
     end)
    (fun e => ret (upload_failure ("Upload failed: " ++ exn_str e)%string, 500)).

End Upload.
End UploadController.

(* ===================================================================== *)
(** ** [app/views/image_views.py]: the prediction handler *)
(* ===================================================================== *)

(** The parts of a Flask request the handler reads. *)
Record Request : Type := mkRequest {
  files : list (string * FileStorage);
  form : list (string * string)
}.

Module Views.
Section Handlers.
Context {rt : Runtime} {http : Http}.
Import MLPredictionService.

(** [jsonify] keeps the dictionary; the handler answers with it and the
    status. *)
Definition _handle_predict_brain_tumor (ml_service : MLPredictionService)
    (request : Request) : py (ImageController.Answer * nat) :=
  match dict_get (files request) "file" with
  | None => ret (ImageController.failure "No file provided", 400)
  | Some file =>
      if String.eqb (filename file) ""
      then ret (ImageController.failure "No file selected", 400)
      else
        catch
          (let file_data := Bytes (stream file) in
           let image_id := dict_get (form request) "image_id" in
           if ImageController.id_truthy image_id
           then ImageController.predict_and_save_brain_tumor ml_service file_data image_id
           else ImageController.predict_brain_tumor ml_service file_data)
          (fun e => ret (ImageController.failure
                           ("Error processing file: " ++ exn_str e)%string, 500))
  end.

End Handlers.
End Views.

(* ===================================================================== *)
(** ** The computation graph as the specification writes it *)
(* ===================================================================== *)

(** Vectors are lists, a matrix is the list of its rows. *)
Module Spec.
Local Open Scope R_scope.

Definition dot (u v : list R) : R :=
  fold_right Rplus 0 (map (fun p => fst p * snd p) (combine u v)).

Definition column (W : list (list R)) (j : nat) : list R :=
  map (fun r => nth j r 0) W.

(** [x·W + b]. *)
Definition affine (x : list R) (W : list (list R)) (b : list R) : list R :=
  map (fun j => dot x (column W j) + nth j b 0) (seq 0 (List.length b)).

(** [LeakyReLU(x) = x if x > 0 else alpha·x], alpha fixed at 0.01. *)
Definition alpha : R := 1 / 100.

Definition LeakyReLU (x : R) : R := if Rgt_dec x 0 then x else alpha * x.

Definition vmax (z : list R) : R := fold_right Rmax (hd 0 z) z.

Definition vsum (z : list R) : R := fold_right Rplus 0 z.

(** [exp(x - max(x)) / sum(exp(x - max(x)))]. *)
Definition Softmax (z : list R) : list R :=
  let e := map (fun x => exp (x - vmax z)) z in
  map (fun y => y / vsum e) e.

(** [Z1 = X·W1 + b1; A1 = LeakyReLU(Z1); Z2 = A1·W2 + b2; A2 = LeakyReLU(Z2);
    Z3 = A2·W3 + b3; A3 = Softmax(Z3)] for one row [x] of [X]. *)
Definition forward (W1 : list (list R)) (b1 : list R)
                   (W2 : list (list R)) (b2 : list R)
                   (W3 : list (list R)) (b3 : list R) (x : list R) : list R :=
  let Z1 := affine x W1 b1 in
  let A1 := map LeakyReLU Z1 in
  let Z2 := affine A1 W2 b2 in
  let A2 := map LeakyReLU Z2 in
  let Z3 := affine A2 W3 b3 in
  Softmax Z3.

(** [i] is the argmax of [p], ties broken by the lowest index. *)
Definition first_argmax (p : list R) (i : nat) : Prop :=
  (i < List.length p)%nat /\
  (forall j, (j < List.length p)%nat -> nth j p 0 <= nth i p 0) /\
  (forall j, (j < i)%nat -> nth j p 0 < nth i p 0).

(** The fixed label ordering. *)
Definition labels : list string :=
  ["glioma"; "meningioma"; "notumor"; "pituitary"]%string.

End Spec.

(* ===================================================================== *)
(** ** Well-formed artifacts and decodable inputs *)
(* ===================================================================== *)

(** The parameters a well-formed artifact holds, with the shapes of a
    network of [n] inputs, hidden layers of [h1] and [h2] units and [k]
    outputs; biases are row vectors. *)
Record well_formed (d : list (string * pyval)) (n h1 h2 k : nat)
    (W1 b1 W2 b2 W3 b3 : ndarray) : Prop := {
  wf_W1 : dict_get d "W1" = Some (VArr W1);
  wf_b1 : dict_get d "b1" = Some (VArr b1);
  wf_W2 : dict_get d "W2" = Some (VArr W2);
  wf_b2 : dict_get d "b2" = Some (VArr b2);
  wf_W3 : dict_get d "W3" = Some (VArr W3);
  wf_b3 : dict_get d "b3" = Some (VArr b3);
  wf_W1_shape : shape W1 = (n, h1);
  wf_b1_shape : shape b1 = (1%nat, h1);
  wf_W2_shape : shape W2 = (h1, h2);
  wf_b2_shape : shape b2 = (1%nat, h2);
  wf_W3_shape : shape W3 = (h2, k);
  wf_b3_shape : shape b3 = (1%nat, k)
}.

(** The artifact holds a scaler fitted on [n] dimensions. *)
Definition has_scaler (d : list (string * pyval)) (n : nat) (sc : StandardScaler) : Prop :=
  dict_get d "scaler" = Some (VScaler sc) /\ n_features_in_ sc = n.

(** The input is a picture (given, or decoded from the bytes) whose pixels
    can be read. *)
Definition decodes_to {rt : Runtime} (data : MLPredictionService.image_data)
    (img : Image) (px : nat -> nat -> list nat) : Prop :=
  match data with
  | MLPredictionService.Bytes b => Image_open b = inr img
  | MLPredictionService.Picture i => i = img
  | MLPredictionService.Unsupported _ => False
  end /\ load img = inr px.

(** The gray level at column [x], line [y] of the picture after the
    conversion to one band and the resize to 32 by 32. *)
Definition gray_32x32 {rt : Runtime} (img : Image) (px : nat -> nat -> list nat)
    (x y : nat) : nat :=
  hd O (resample (width img) (height img)
          (fun x' y' => [luminance (mode img) (px x' y')]) 32 32 x y).

(** The array preprocessing builds from a picture whose pixels are [px]. *)
Definition features {rt : Runtime} (img : Image) (px : nat -> nat -> list nat)
    (sc : StandardScaler) : ndarray :=
  mkArr 1 1024
    (fun _ k => ((INR (gray_32x32 img px (k mod 32) (k / 32)) - mean_ sc k)
                 / scale_ sc k)%R).

(** The dictionary returned when anything in the prediction raised [e]. *)
Definition failed_prediction (e : exn) : MLPredictionService.PredictionResult :=
  MLPredictionService.mkResult false
    (Some ("Prediction failed: " ++ exn_str e)%string) None None 0%R [] [] None.

(** Past the guard on [self.model], every exception of the forward pass
    comes from a dictionary lookup or from numpy. *)
Definition from_library (e : exn) : Prop := exn_cls e <> Exception.

(** The artifact is missing or cannot be deserialized. *)
Definition artifact_unusable {rt : Runtime} : Prop :=
  fs model_path = Absent \/
  (exists why, fs model_path = Unreadable why) \/
  (exists bytes e, fs model_path = Content bytes /\ pickle_load bytes = inl e).

(** The exception of the guard at the head of [_forward_pass]. *)
Definition model_not_loaded : exn :=
  mkExn Exception "Model not loaded. Cannot perform prediction.".

(* ===================================================================== *)
(** ** Concrete artifacts and runtimes *)
(* ===================================================================== *)

Module Fixture.

Definition zeros (r c : nat) : ndarray := mkArr r c (fun _ _ => 0%R).

Definition unit_scaler : StandardScaler :=
  mkScaler 1024 (fun _ => 0%R) (fun _ => 1%R).

(** A network of shape 1024-8-8-4 with all parameters zero. *)
Definition artifact : list (string * pyval) :=
  [("W1", VArr (zeros 1024 8)); ("b1", VArr (zeros 1 8));
   ("W2", VArr (zeros 8 8));    ("b2", VArr (zeros 1 8));
   ("W3", VArr (zeros 8 4));    ("b3", VArr (zeros 1 4));
   ("scaler", VScaler unit_scaler)]%string.

(** The same network with a fifth output column. *)
Definition artifact5 : list (string * pyval) :=
  [("W1", VArr (zeros 1024 8)); ("b1", VArr (zeros 1 8));
   ("W2", VArr (zeros 8 8));    ("b2", VArr (zeros 1 8));
   ("W3", VArr (zeros 8 5));    ("b3", VArr (zeros 1 5));
   ("scaler", VScaler unit_scaler)]%string.

(** A mid-gray picture of 32 by 32 pixels. *)
Definition gray_picture : Image :=
  mkImage "L" 32 32 (inr (fun _ _ => [128])).

Definition path : string := "/srv/app/ml_models/best_brain_nn_model.pkl".

(** A runtime whose artifact file deserializes to what [unpickled] says:
    nearest-neighbour resampling, the first band as gray level, every
    non-empty byte string decoding to the mid-gray picture. *)
Definition runtime_with (on_disk : file) (unpickled : py pyobj) : Runtime :=
  {| Image_open := fun b =>
       if String.eqb b "" then inl (mkExn OSError "cannot identify image file")
       else inr gray_picture;
     luminance := fun _ bands => hd O bands;
     resample := fun sw sh px w h x y => px (x * sw / w) (y * sh / h);
     format_percent := fun _ => "25.00%"%string;
     model_path := path;
     fs := fun p => if String.eqb p path then on_disk else Absent;
     pickle_load := fun _ => unpickled |}.

Definition runtime : Runtime :=
  runtime_with (Content "artifact") (inr (PyDict artifact)).

(** The artifact file is not there. *)
Definition runtime_missing : Runtime :=
  runtime_with Absent (inr (PyDict artifact)).

(** The artifact file holds the pickle of [None] (the two bytes [N.]). *)
Definition runtime_none : Runtime :=
  runtime_with (Content "N.") (inr PyNone).

(** An HTTP client whose every request fails to connect. *)
Definition http_down : Http :=
  {| base_url := "https://example.supabase.co/rest/v1";
     requests_patch := fun _ _ => inl (mkExn OSError "connection refused") |}.

Definition service : MLPredictionService.MLPredictionService :=
  MLPredictionService.mkService (PyDict artifact).

End Fixture.

(** Further concrete values, for the catalog and the upload. *)
Module Fixture2.

(** An artifact whose scaler was fitted on 10 dimensions. *)
Definition small_scaler : StandardScaler :=
  mkScaler 10 (fun _ => 0%R) (fun _ => 1%R).

Definition artifact_small_scaler : list (string * pyval) :=
  [("scaler", VScaler small_scaler)]%string.

Definition record : json :=
  JObj [("id", JStr "img-1"); ("name", JStr "scan");
        ("url", JStr "https://example.supabase.co/storage/v1/object/public/brain-images/scan.png")]%string.

(** A backend that creates and lists the one record. *)
Definition rest_ok : Rest :=
  {| requests_post := fun _ _ => inr (mkResponse 201 (inr (JList [record])));
     requests_get := fun _ => inr (mkResponse 200 (inr (JList [record]))) |}.

(** A backend that cannot be reached. *)
Definition rest_down : Rest :=
  {| requests_post := fun _ _ => inl (mkExn OSError "connection refused");
     requests_get := fun _ => inl (mkExn OSError "connection refused") |}.

(** A backend whose update matches no record. *)
Definition http_no_match : Http :=
  {| base_url := "https://example.supabase.co/rest/v1";
     requests_patch := fun _ _ => inr (mkResponse 200 (inr (JList []))) |}.

Definition is_space (c : ascii) : bool :=
  let n := nat_of_ascii c in
  (Nat.leb 9 n && Nat.leb n 13) || (Nat.leb 28 n && Nat.leb n 32).

Fixpoint lstrip (s : string) : string :=
  match s with
  | EmptyString => EmptyString
  | String c rest => if is_space c then lstrip rest else s
  end.

Fixpoint rstrip (s : string) : string :=
  match s with
  | EmptyString => EmptyString
  | String c rest =>
      match rstrip rest with
      | EmptyString => if is_space c then EmptyString else String c EmptyString
      | rest' => String c rest'
      end
  end.

Definition lower_char (c : ascii) : ascii :=
  let n := nat_of_ascii c in
  if Nat.leb 65 n && Nat.leb n 90 then ascii_of_nat (n + 32) else c.

Fixpoint lower (s : string) : string :=
  match s with
  | EmptyString => EmptyString
  | String c rest => String (lower_char c) (lower rest)
  end.

(** Strings of ASCII characters: white space stripped at both ends, the
    letters A to Z lowered; file names kept as they are. *)
Definition builtins : Builtins :=
  {| str_strip := fun s => rstrip (lstrip s);
     str_lower := lower;
     str_len := String.length;
     secure_filename := fun s => s;
     uuid4_hex := "0f8fad5bd9cb469fa16570867728950e";
     joined_allowed_extensions := "png, jpg, jpeg, gif, webp" |}.

(** An object storage that takes every file. *)
Definition storage_ok : Storage :=
  {| supabase_url := "https://example.supabase.co";
     requests_post_data := fun _ _ _ => inr (mkStorageResponse 200 "");
     requests_delete := fun _ => inr tt |}.


Definition scan_file : FileStorage :=
  mkFile "scan.PNG" (Some "image/png"%string) "scan".

End Fixture2.

(* ===================================================================== *)
(** * Properties *)
(* ===================================================================== *)

(** Running a block of the error monad: reduce the binds that have a value,
    then use an equation of the context for the next call. *)
Ltac py_step := cbn [bind ret raise catch Monad_either Exception_either].

Ltac py_run :=
  py_step;
  repeat match goal with
         | H : ?call = inr _ |- context [?call] => rewrite H; py_step
         | H : ?call = inl _ |- context [?call] => rewrite H; py_step
         end.

(** ** Sums and maxima *)

Section Reductions.
Local Open Scope R_scope.

Lemma vsum_map_div (s : R) (l : list R) :
  Spec.vsum (map (fun y => y / s) l) = Spec.vsum l / s.
Proof.
  unfold Spec.vsum.
  induction l as [|x l IH]; simpl.
  - unfold Rdiv. ring.
  - rewrite IH. unfold Rdiv. ring.
Qed.

Lemma vsum_pos (l : list R) :
  l <> [] -> (forall x, In x l -> 0 < x) -> 0 < Spec.vsum l.
Proof.
  unfold Spec.vsum.
  induction l as [|x l IH]; intros Hne Hpos; [congruence|].
  simpl. destruct l as [|y l'].
  - simpl. specialize (Hpos x (or_introl eq_refl)). lra.
  - assert (0 < x) by (apply Hpos; left; reflexivity).
    assert (0 < fold_right Rplus 0 (y :: l')).
    { apply IH; [discriminate|]. intros z Hz. apply Hpos. right. exact Hz. }
    lra.
Qed.

Lemma vsum_le_length (l : list R) (m : R) :
  (forall x, In x l -> x <= m) -> Spec.vsum l <= INR (List.length l) * m.
Proof.
  unfold Spec.vsum.
  induction l as [|x l IH]; intros Hle.
  - simpl. lra.
  - cbn [fold_right List.length]. rewrite S_INR.
    assert (x <= m) by (apply Hle; left; reflexivity).
    assert (fold_right Rplus 0 l <= INR (List.length l) * m).
    { apply IH. intros z Hz. apply Hle. right. exact Hz. }
    lra.
Qed.

Lemma fold_Rmax_snoc (a x : R) (l : list R) :
  fold_right Rmax a (l ++ [x]) = Rmax (fold_right Rmax a l) x.
Proof.
  induction l as [|y l IH]; simpl.
  - apply Rmax_comm.
  - rewrite IH. apply Rmax_assoc.
Qed.

Lemma rmax_upto_fold (f : nat -> R) (n : nat) :
  rmax_upto f n = fold_right Rmax (f O) (map f (seq 0 (S n))).
Proof.
  induction n as [|n IH].
  - simpl. symmetry. apply Rmax_left. lra.
  - cbn [rmax_upto]. rewrite IH.
    rewrite (seq_S (S n) 0), map_app. cbn [map Nat.add].
    rewrite fold_Rmax_snoc. reflexivity.
Qed.

Lemma rmax_upto_ge (f : nat -> R) (n j : nat) :
  (j <= n)%nat -> f j <= rmax_upto f n.
Proof.
  induction n as [|n IH]; intros Hj.
  - replace j with O by lia. simpl. lra.
  - cbn [rmax_upto].
    destruct (Nat.eq_dec j (S n)) as [->|Hne].
    + apply Rmax_r.
    + eapply Rle_trans; [apply IH; lia | apply Rmax_l].
Qed.

Lemma argmax_upto_le (f : nat -> R) (n : nat) : (argmax_upto f n <= n)%nat.
Proof.
  induction n as [|n IH]; simpl; [lia|].
  destruct (Rlt_dec _ _); lia.
Qed.

Lemma rmax_upto_argmax (f : nat -> R) (n : nat) :
  rmax_upto f n = f (argmax_upto f n).
Proof.
  induction n as [|n IH]; simpl; [reflexivity|].
  rewrite IH. destruct (Rlt_dec _ _) as [Hlt|Hge].
  - apply Rmax_right. lra.
  - apply Rmax_left. lra.
Qed.

Lemma argmax_upto_max (f : nat -> R) (n j : nat) :
  (j <= n)%nat -> f j <= f (argmax_upto f n).
Proof.
  intros Hj. rewrite <- rmax_upto_argmax. apply rmax_upto_ge. exact Hj.
Qed.

Lemma argmax_upto_first (f : nat -> R) (n j : nat) :
  (j < argmax_upto f n)%nat -> f j < f (argmax_upto f n).
Proof.
  induction n as [|n IH]; simpl; [lia|].
  destruct (Rlt_dec _ _) as [Hlt|Hge]; intros Hj.
  - eapply Rle_lt_trans; [|exact Hlt].
    apply argmax_upto_max. lia.
  - apply IH. exact Hj.
Qed.

(** A scan over equal values stays at index 0. *)
Lemma argmax_upto_const (f : nat -> R) (n : nat) :
  (forall j, (j <= n)%nat -> f j = f O) -> argmax_upto f n = O.
Proof.
  induction n as [|n IH]; intros Heq; simpl; [reflexivity|].
  rewrite IH by (intros j Hj; apply Heq; lia).
  destruct (Rlt_dec _ _) as [Hlt|Hge]; [|reflexivity].
  rewrite (Heq (S n)) in Hlt by lia. lra.
Qed.

End Reductions.

(** ** The softmax of the specification is a probability vector *)

Section SpecSoftmax.
Local Open Scope R_scope.

Lemma Softmax_length (z : list R) :
  List.length (Spec.Softmax z) = List.length z.
Proof. unfold Spec.Softmax. rewrite !length_map. reflexivity. Qed.

Lemma exps_sum_pos (m : R) (z : list R) :
  z <> [] -> 0 < Spec.vsum (map (fun x => exp (x - m)) z).
Proof.
  intros Hne. apply vsum_pos.
  - destruct z; [congruence | discriminate].
  - intros x Hx. apply in_map_iff in Hx. destruct Hx as [y [<- _]].
    apply exp_pos.
Qed.

Lemma Softmax_pos (z : list R) (p : R) :
  In p (Spec.Softmax z) -> 0 < p.
Proof.
  unfold Spec.Softmax. intros Hp.
  apply in_map_iff in Hp. destruct Hp as [y [<- Hy]].
  assert (Hne : z <> []) by (destruct z; [destruct Hy | discriminate]).
  apply in_map_iff in Hy. destruct Hy as [x [<- _]].
  apply Rdiv_lt_0_compat; [apply exp_pos | apply exps_sum_pos; exact Hne].
Qed.

Lemma Softmax_sum (z : list R) :
  z <> [] -> Spec.vsum (Spec.Softmax z) = 1.
Proof.
  intros Hne. unfold Spec.Softmax.
  rewrite vsum_map_div.
  pose proof (exps_sum_pos (Spec.vmax z) z Hne) as Hpos.
  field. lra.
Qed.

(** Some entry of a probability vector of length [n] is at least [1/n]. *)
Lemma Softmax_bound (z : list R) (m : R) :
  z <> [] -> (forall p, In p (Spec.Softmax z) -> p <= m) ->
  1 / INR (List.length z) <= m.
Proof.
  intros Hne Hm.
  pose proof (vsum_le_length (Spec.Softmax z) m Hm) as Hle.
  rewrite Softmax_sum, Softmax_length in Hle by exact Hne.
  assert (0 < INR (List.length z)).
  { apply lt_0_INR. destruct z; [congruence | simpl; lia]. }
  unfold Rdiv. apply Rmult_le_reg_r with (INR (List.length z)); [assumption|].
  rewrite Rmult_assoc, Rinv_l by lra. lra.
Qed.

End SpecSoftmax.

(** ** numpy operations against lists *)

Section ArrayLemmas.
Local Open Scope R_scope.

Lemma row_length (A : ndarray) (i : nat) : List.length (row A i) = ncols A.
Proof. unfold row. rewrite length_map, length_seq. reflexivity. Qed.

Lemma nth_row (A : ndarray) (i j : nat) :
  (j < ncols A)%nat -> nth j (row A i) 0 = item A i j.
Proof.
  intros Hj. unfold row.
  rewrite (nth_indep _ 0 (item A i O)) by (rewrite length_map, length_seq; exact Hj).
  rewrite map_nth, seq_nth by exact Hj. reflexivity.
Qed.

Lemma row_ext (A : ndarray) (i : nat) (g : nat -> R) :
  (forall j, (j < ncols A)%nat -> item A i j = g j) ->
  row A i = map g (seq 0 (ncols A)).
Proof.
  intros H. unfold row. apply map_ext_in.
  intros j Hj. apply in_seq in Hj. apply H. lia.
Qed.

Lemma tolist_length (A : ndarray) : List.length (tolist A) = nrows A.
Proof. unfold tolist. rewrite length_map, length_seq. reflexivity. Qed.

Lemma dot_map (f g : nat -> R) (l : list nat) :
  Spec.dot (map f l) (map g l) = Spec.vsum (map (fun k => f k * g k) l).
Proof.
  unfold Spec.dot, Spec.vsum.
  induction l as [|k l IH]; simpl; [reflexivity|].
  rewrite IH. reflexivity.
Qed.

Lemma column_tolist (W : ndarray) (j : nat) :
  (j < ncols W)%nat ->
  Spec.column (tolist W) j = map (fun k => item W k j) (seq 0 (nrows W)).
Proof.
  intros Hj. unfold Spec.column, tolist. rewrite map_map.
  apply map_ext. intros k. apply nth_row. exact Hj.
Qed.

Lemma bdim_same (a : nat) : bdim a a = Some a.
Proof. unfold bdim. rewrite Nat.eqb_refl. reflexivity. Qed.

Lemma bdim_one_r (a : nat) : bdim a 1 = Some a.
Proof.
  unfold bdim. destruct (Nat.eqb_spec a 1) as [->|Hne]; [reflexivity|].
  reflexivity.
Qed.

Lemma bidx_lt (n i : nat) : (i < n)%nat -> bidx n i = i.
Proof.
  unfold bidx. destruct (Nat.eqb_spec n 1) as [->|_]; intros Hi; [lia | reflexivity].
Qed.

Lemma bidx_one (i : nat) : bidx 1 i = O.
Proof. reflexivity. Qed.

(** An operand of one row is repeated on every row of the other. *)
Lemma broadcast2_row_vector (op : R -> R -> R) (A B : ndarray) :
  nrows B = 1%nat -> ncols B = ncols A ->
  exists C, broadcast2 op A B = inr C /\
            nrows C = nrows A /\ ncols C = ncols A /\
            forall i j, (i < nrows A)%nat -> (j < ncols A)%nat ->
                        item C i j = op (item A i j) (item B O j).
Proof.
  intros Hr Hc. unfold broadcast2.
  rewrite Hr, Hc, bdim_one_r, bdim_same.
  eexists. split; [reflexivity|]. cbn [nrows ncols item].
  repeat split. intros i j Hi Hj.
  rewrite !bidx_lt by assumption. reflexivity.
Qed.

(** An operand of one column is repeated on every column of the other. *)
Lemma broadcast2_col_vector (op : R -> R -> R) (A B : ndarray) :
  nrows B = nrows A -> ncols B = 1%nat ->
  exists C, broadcast2 op A B = inr C /\
            nrows C = nrows A /\ ncols C = ncols A /\
            forall i j, (i < nrows A)%nat -> (j < ncols A)%nat ->
                        item C i j = op (item A i j) (item B i O).
Proof.
  intros Hr Hc. unfold broadcast2.
  rewrite Hr, Hc, bdim_one_r, bdim_same.
  eexists. split; [reflexivity|]. cbn [nrows ncols item].
  repeat split. intros i j Hi Hj.
  rewrite !bidx_lt by assumption. reflexivity.
Qed.

(** [X @ W + b] computes the affine map of the specification on every row. *)
Lemma affine_stage (X W b : ndarray) :
  ncols X = nrows W -> nrows b = 1%nat -> ncols b = ncols W ->
  exists Z, (XW <- matmul X W ;; add XW b) = inr Z /\
            nrows Z = nrows X /\ ncols Z = ncols W /\
            forall i, (i < nrows X)%nat ->
                      row Z i = Spec.affine (row X i) (tolist W) (row b O).
Proof.
  intros Hin Hbr Hbc. unfold matmul.
  rewrite Hin, Nat.eqb_refl. cbn [bind ret Monad_either].
  destruct (broadcast2_row_vector Rplus
              (mkArr (nrows X) (ncols W)
                 (fun i j => rsum (fun k => item X i k * item W k j) (nrows W))) b)
    as [Z [HZ [Hr [Hc Hitem]]]]; [exact Hbr | exact Hbc |].
  cbn [nrows ncols item] in Hr, Hc, Hitem.
  exists Z. split; [exact HZ|]. split; [exact Hr|]. split; [exact Hc|].
  intros i Hi. unfold Spec.affine. rewrite row_length, Hbc, <- Hc.
  apply row_ext. intros j Hj. rewrite Hc in Hj.
  rewrite Hitem by assumption.
  rewrite nth_row by (rewrite Hbc; exact Hj).
  rewrite column_tolist by exact Hj.
  unfold row. rewrite Hin, dot_map. reflexivity.
Qed.

Lemma leaky_relu_shape (Z : ndarray) (a : R) :
  nrows (MLPredictionService._leaky_relu Z a) = nrows Z /\
  ncols (MLPredictionService._leaky_relu Z a) = ncols Z.
Proof. split; reflexivity. Qed.

Lemma leaky_relu_row (Z : ndarray) (i : nat) :
  row (MLPredictionService._leaky_relu Z (1 / 100)) i = map Spec.LeakyReLU (row Z i).
Proof. unfold row. rewrite map_map. reflexivity. Qed.

End ArrayLemmas.

(** ** The service's softmax and forward pass *)

Section ForwardLemmas.
Local Open Scope R_scope.
Import MLPredictionService.

Lemma vmax_row (Z : ndarray) (i : nat) :
  ncols Z <> O -> Spec.vmax (row Z i) = rmax_upto (item Z i) (ncols Z - 1).
Proof.
  intros Hc. unfold Spec.vmax, row.
  destruct (ncols Z) as [|c] eqn:E; [congruence|].
  replace (S c - 1)%nat with c by lia.
  rewrite rmax_upto_fold. reflexivity.
Qed.

(** [_softmax] computes the softmax of the specification on every row of an
    array that has at least one column. *)
Lemma softmax_stage (Z : ndarray) :
  ncols Z <> O ->
  exists A, _softmax Z = inr A /\
            nrows A = nrows Z /\ ncols A = ncols Z /\
            forall i, (i < nrows Z)%nat -> row A i = Spec.Softmax (row Z i).
Proof.
  intros Hc. unfold _softmax, max_axis1.
  destruct (Nat.eqb_spec (ncols Z) 0) as [E|_]; [congruence|].
  cbn [bind ret Monad_either].
  destruct (broadcast2_col_vector Rminus Z
              (mkArr (nrows Z) 1 (fun i _ => rmax_upto (item Z i) (ncols Z - 1))))
    as [D [HD [HDr [HDc HDitem]]]]; [reflexivity | reflexivity |].
  cbn [item] in HDitem.
  unfold subtract. rewrite HD.
  destruct (broadcast2_col_vector Rdiv (np_exp D) (sum_axis1 (np_exp D)))
    as [A [HA [HAr [HAc HAitem]]]]; [reflexivity | reflexivity |].
  cbn [np_exp amap sum_axis1 nrows ncols item] in HAr, HAc, HAitem.
  exists A. split; [exact HA|].
  split; [congruence|]. split; [congruence|].
  intros i Hi.
  assert (Hexp : map (fun x => exp (x - Spec.vmax (row Z i))) (row Z i)
                 = map (fun j => exp (item D i j)) (seq 0 (ncols D))).
  { unfold row at 2. rewrite map_map, HDc. apply map_ext_in.
    intros j Hj. apply in_seq in Hj.
    rewrite HDitem by lia. rewrite vmax_row by exact Hc. reflexivity. }
  unfold Spec.Softmax. rewrite Hexp, map_map.
  rewrite (row_ext A i (fun j => exp (item D i j)
             / Spec.vsum (map (fun j0 => exp (item D i j0)) (seq 0 (ncols D))))).
  - rewrite HAc. reflexivity.
  - intros j Hj. rewrite HAc in Hj. rewrite HAitem by (rewrite ?HDr; lia).
    reflexivity.
Qed.

Lemma shape_inv (A : ndarray) (r c : nat) :
  shape A = (r, c) -> nrows A = r /\ ncols A = c.
Proof. unfold shape. intros H. inversion H. split; reflexivity. Qed.

(** On a well-formed artifact the forward pass returns, and row by row it
    returns what the computation graph of the specification gives. *)
Lemma forward_pass_rows (d : list (string * pyval)) (n h1 h2 k : nat)
    (W1 b1 W2 b2 W3 b3 X : ndarray) :
  well_formed d n h1 h2 k W1 b1 W2 b2 W3 b3 ->
  k <> O -> ncols X = n ->
  exists A3, _forward_pass (mkService (PyDict d)) X = inr A3 /\
             nrows A3 = nrows X /\ ncols A3 = k /\
             forall i, (i < nrows X)%nat ->
               row A3 i = Spec.forward (tolist W1) (row b1 O) (tolist W2) (row b2 O)
                            (tolist W3) (row b3 O) (row X i).
Proof.
  intros [HW1 Hb1 HW2 Hb2 HW3 Hb3 SW1 Sb1 SW2 Sb2 SW3 Sb3] Hk HX.
  apply shape_inv in SW1, Sb1, SW2, Sb2, SW3, Sb3.
  destruct SW1 as [W1r W1c], Sb1 as [b1r b1c], SW2 as [W2r W2c],
           Sb2 as [b2r b2c], SW3 as [W3r W3c], Sb3 as [b3r b3c].
  unfold _forward_pass, subscript. cbn [model].
  rewrite HW1, Hb1, HW2, Hb2, HW3, Hb3.
  cbn [bind ret Monad_either np_matmul np_add].
  destruct (affine_stage X W1 b1) as [Z1 [HZ1 [Z1r [Z1c Z1row]]]]; [congruence..|].
  cbn [bind ret Monad_either] in HZ1.
  destruct (matmul X W1) as [e|XW1] eqn:EXW1; [discriminate|].
  cbn [bind ret Monad_either]. rewrite HZ1.
  set (A1 := _leaky_relu Z1 (1 / 100)).
  destruct (affine_stage A1 W2 b2) as [Z2 [HZ2 [Z2r [Z2c Z2row]]]];
    [subst A1; cbn [_leaky_relu amap ncols]; congruence | congruence..|].
  cbn [bind ret Monad_either] in HZ2.
  destruct (matmul A1 W2) as [e|AW2] eqn:EAW2; [discriminate|].
  cbn [bind ret Monad_either]. rewrite HZ2.
  set (A2 := _leaky_relu Z2 (1 / 100)).
  destruct (affine_stage A2 W3 b3) as [Z3 [HZ3 [Z3r [Z3c Z3row]]]];
    [subst A2; cbn [_leaky_relu amap ncols]; congruence | congruence..|].
  cbn [bind ret Monad_either] in HZ3.
  destruct (matmul A2 W3) as [e|AW3] eqn:EAW3; [discriminate|].
  cbn [bind ret Monad_either]. rewrite HZ3.
  destruct (softmax_stage Z3) as [A3 [HA3 [A3r [A3c A3row]]]]; [congruence|].
  rewrite HA3. exists A3. split; [reflexivity|].
  assert (HA1r : nrows A1 = nrows Z1) by reflexivity.
  assert (HA2r : nrows A2 = nrows Z2) by reflexivity.
  split; [congruence|]. split; [congruence|].
  intros i Hi. unfold Spec.forward.
  rewrite A3row by congruence.
  rewrite Z3row by congruence.
  subst A2. rewrite leaky_relu_row.
  rewrite Z2row by congruence.
  subst A1. rewrite leaky_relu_row.
  rewrite Z1row by congruence.
  reflexivity.
Qed.

End ForwardLemmas.

(** ** Preprocessing *)

Section PreprocessLemmas.
Context {rt : Runtime}.
Local Open Scope R_scope.
Import MLPredictionService.

Lemma preprocess_decodable (d : list (string * pyval)) (sc : StandardScaler)
    (data : image_data) (img : Image) (px : nat -> nat -> list nat) :
  has_scaler d 1024 sc -> decodes_to data img px ->
  _preprocess_image (mkService (PyDict d)) data = inr (features img px sc).
Proof.
  intros [Hsc Hn] [Hdec Hload].
  unfold _preprocess_image, PIL.convert_L, PIL.resize, PIL.np_array, subscript,
    scaler_transform, transform.
  cbn [model].
  assert (Himg : match data with
                 | Bytes b => Image_open b
                 | Picture i => ret i
                 | Unsupported _ =>
                     raise (mkExn ValueError
                              "Invalid image data type. Expected bytes or PIL Image.")
                 end = inr img).
  { destruct data as [b|i|t]; [exact Hdec | subst i; reflexivity | destruct Hdec]. }
  rewrite Himg. cbn [bind ret catch Monad_either Exception_either].
  rewrite Hload. cbn [bind ret catch Monad_either Exception_either load].
  rewrite Hsc. cbn [bind ret catch Monad_either Exception_either].
  rewrite Hn.
  change (ncols (reshape_1_m1 (astype_float32 (flatten _)))) with (32 * 32)%nat.
  change (Nat.eqb (32 * 32) 1024) with true.
  reflexivity.
Qed.

(** Preprocessing raises nothing but its own wrapped exception. *)
Lemma preprocess_raises_wrapped (self : MLPredictionService) (data : image_data)
    (e : exn) :
  _preprocess_image self data = inl e ->
  exists e0, e = mkExn Exception ("Image preprocessing failed: " ++ exn_str e0)%string.
Proof.
  unfold _preprocess_image.
  match goal with |- catch ?body _ = _ -> _ => destruct body as [e0|X] end;
    cbn [catch Exception_either raise]; intros H; [|discriminate].
  exists e0. congruence.
Qed.

End PreprocessLemmas.

(** ** The prediction *)

Section PredictLemmas.
Context {rt : Runtime}.
Local Open Scope R_scope.
Import MLPredictionService.

(** The steps of the protected block of [predict_brain_tumor]. *)
Lemma predict_cases (self : MLPredictionService) (data : image_data) :
  (exists e, predict_brain_tumor self data = inr (failed_prediction e)) \/
  (exists X P i t c cp p0,
      _preprocess_image self data = inr X /\
      _forward_pass self X = inr P /\
      argmax P = inr i /\
      label_get label_map i = inr t /\
      amax P = inr c /\
      class_probabilities_of P (seq 0 (List.length label_map)) [] = inr cp /\
      tolist_0 P = inr p0 /\
      predict_brain_tumor self data =
        inr (mkResult true None (Some i) (Some t) c p0 cp
               (Some ("Brain scan classified as: " ++ t ++ " (confidence: "
                      ++ format_percent c ++ ")")%string))).
Proof.
  unfold predict_brain_tumor.
  destruct (_preprocess_image self data) as [e|X] eqn:EX;
    [left; exists e; reflexivity|].
  destruct (_forward_pass self X) as [e|P] eqn:EP;
    [left; exists e; py_run; reflexivity|].
  destruct (argmax P) as [e|i] eqn:Ei;
    [left; exists e; py_run; reflexivity|].
  destruct (label_get label_map i) as [e|t] eqn:Et;
    [left; exists e; py_run; reflexivity|].
  destruct (amax P) as [e|c] eqn:Ec;
    [left; exists e; py_run; reflexivity|].
  destruct (class_probabilities_of P (seq 0 (List.length label_map)) [])
    as [e|cp] eqn:Ecp;
    [left; exists e; py_run; reflexivity|].
  destruct (tolist_0 P) as [e|p0] eqn:Ep0;
    [left; exists e; py_run; reflexivity|].
  right. exists X, P, i, t, c, cp, p0.
  repeat (split; [assumption || reflexivity|]).
  py_run. reflexivity.
Qed.

Lemma label_get_inv (i : nat) (t : string) :
  label_get label_map i = inr t ->
  (i < 4)%nat /\ nth_error Spec.labels i = Some t.
Proof.
  destruct i as [|[|[|[|i]]]]; cbn; intros H; inversion H; subst;
    split; (lia || reflexivity).
Qed.

Lemma label_get_lt (i : nat) :
  (i < 4)%nat -> exists t, label_get label_map i = inr t.
Proof.
  destruct i as [|[|[|[|i]]]]; intros Hi; try lia; eexists; reflexivity.
Qed.

Lemma argmax_inv (P : ndarray) (i : nat) :
  argmax P = inr i ->
  size P <> O /\ i = argmax_upto (flat P) (size P - 1).
Proof.
  unfold argmax. destruct (Nat.eqb_spec (size P) 0) as [E|E]; intros H.
  - discriminate.
  - inversion H. split; [exact E | reflexivity].
Qed.

Lemma amax_inv (P : ndarray) (c : R) :
  amax P = inr c ->
  size P <> O /\ c = flat P (argmax_upto (flat P) (size P - 1)).
Proof.
  unfold amax. destruct (Nat.eqb_spec (size P) 0) as [E|E]; intros H.
  - discriminate.
  - inversion H. split; [exact E | apply rmax_upto_argmax].
Qed.

Lemma tolist_0_inv (P : ndarray) (p0 : list R) :
  tolist_0 P = inr p0 -> (0 < nrows P)%nat /\ p0 = row P O.
Proof.
  unfold tolist_0, tolist. destruct (nrows P) as [|r]; cbn; intros H.
  - discriminate.
  - inversion H. split; [lia | reflexivity].
Qed.

Lemma getitem2_inv (P : ndarray) (i j : nat) (v : R) :
  getitem2 P i j = inr v ->
  (i < nrows P)%nat /\ (j < ncols P)%nat /\ v = item P i j.
Proof.
  unfold getitem2.
  destruct (Nat.ltb_spec i (nrows P)) as [Hi|Hi]; [|discriminate].
  destruct (Nat.ltb_spec j (ncols P)) as [Hj|Hj]; [|discriminate].
  intros Hv. inversion Hv. auto.
Qed.

Lemma getitem2_lt (P : ndarray) (i j : nat) :
  (i < nrows P)%nat -> (j < ncols P)%nat -> getitem2 P i j = inr (item P i j).
Proof.
  intros Hi Hj. unfold getitem2.
  destruct (Nat.ltb_spec i (nrows P)) as [_|Hge]; [|lia].
  destruct (Nat.ltb_spec j (ncols P)) as [_|Hge]; [|lia].
  reflexivity.
Qed.

(** The dictionary comprehension over the four labels. *)
Lemma class_probabilities_inv (P : ndarray) (cp : list (string * R)) :
  class_probabilities_of P (seq 0 (List.length label_map)) [] = inr cp ->
  (0 < nrows P)%nat /\ (4 <= ncols P)%nat /\
  cp = [("glioma", item P 0 0); ("meningioma", item P 0 1);
        ("notumor", item P 0 2); ("pituitary", item P 0 3)]%string.
Proof.
  cbn [List.length label_map seq class_probabilities_of label_get Nat.eqb].
  py_step.
  destruct (getitem2 P 0 0) as [e|v0] eqn:E0; [discriminate|]. py_step.
  destruct (getitem2 P 0 1) as [e|v1] eqn:E1; [discriminate|]. py_step.
  destruct (getitem2 P 0 2) as [e|v2] eqn:E2; [discriminate|]. py_step.
  destruct (getitem2 P 0 3) as [e|v3] eqn:E3; [discriminate|]. py_step.
  apply getitem2_inv in E0, E1, E2, E3.
  destruct E0 as [Hr [_ ->]], E1 as [_ [_ ->]], E2 as [_ [_ ->]], E3 as [_ [Hc ->]].
  cbn. intros H. inversion H. repeat split; [exact Hr | lia].
Qed.

Lemma class_probabilities_lt (P : ndarray) :
  (0 < nrows P)%nat -> (4 <= ncols P)%nat ->
  class_probabilities_of P (seq 0 (List.length label_map)) [] =
  inr [("glioma", item P 0 0); ("meningioma", item P 0 1);
       ("notumor", item P 0 2); ("pituitary", item P 0 3)]%string.
Proof.
  intros Hr Hc.
  cbn [List.length label_map seq class_probabilities_of label_get Nat.eqb].
  py_step.
  rewrite !getitem2_lt by lia. reflexivity.
Qed.

(** In an array of at least one row, an index below the number of columns
    read in row-major order is in the first row. *)
Lemma flat_row0 (P : ndarray) (j : nat) :
  (j < ncols P)%nat -> flat P j = item P O j.
Proof.
  intros Hj. unfold flat.
  rewrite Nat.div_small, Nat.mod_small by exact Hj. reflexivity.
Qed.

(** The first maximum of the whole array, when it falls in the first row, is
    the first maximum of that row. *)
Lemma first_argmax_row0 (P : ndarray) (i : nat) :
  (0 < nrows P)%nat -> (i < ncols P)%nat ->
  i = argmax_upto (flat P) (size P - 1) ->
  Spec.first_argmax (row P O) i.
Proof.
  intros Hr Hc Hi. unfold Spec.first_argmax.
  rewrite row_length. split; [exact Hc|]. split.
  - intros j Hj. rewrite !nth_row by assumption.
    rewrite <- !flat_row0 by assumption.
    rewrite Hi. apply argmax_upto_max.
    unfold size. nia.
  - intros j Hj. rewrite !nth_row by lia.
    rewrite <- !flat_row0 by lia.
    rewrite Hi. apply argmax_upto_first. rewrite <- Hi. exact Hj.
Qed.

(** Whatever the forward pass returns came out of [_softmax]. *)
Lemma forward_pass_inv (self : MLPredictionService) (X P : ndarray) :
  _forward_pass self X = inr P -> exists Z3, _softmax Z3 = inr P.
Proof.
  unfold _forward_pass.
  destruct (model self); [discriminate | |];
    repeat match goal with
           | |- bind ?c _ = inr _ -> _ =>
               destruct c eqn:?; py_step; [discriminate|]
           | |- match ?c with inl _ => _ | inr _ => _ end = inr _ -> _ =>
               destruct c eqn:?; [discriminate|]
           end;
    intros H; inversion H; subst; eexists; eassumption.
Qed.

(** A row that is a softmax has positive entries that sum to one, and its
    largest entry is at least one over its length. *)
Lemma softmax_row_facts (A : ndarray) (i : nat) (z : list R) :
  row A i = Spec.Softmax z -> ncols A <> O ->
  (forall j, (j < ncols A)%nat -> 0 < item A i j) /\
  rsum (item A i) (ncols A) = 1 /\
  (forall m, (forall j, (j < ncols A)%nat -> item A i j <= m) ->
             1 / INR (ncols A) <= m).
Proof.
  intros Hrow Hc.
  assert (Hlen : List.length z = ncols A).
  { rewrite <- Softmax_length, <- Hrow. apply row_length. }
  assert (Hne : z <> []) by (intros ->; simpl in Hlen; congruence).
  split; [|split].
  - intros j Hj. apply (Softmax_pos z). rewrite <- Hrow.
    rewrite <- (nth_row A i j Hj). apply nth_In. rewrite row_length. exact Hj.
  - change (rsum (item A i) (ncols A)) with (Spec.vsum (row A i)).
    rewrite Hrow. apply Softmax_sum. exact Hne.
  - intros m Hm. rewrite <- Hlen. apply Softmax_bound; [exact Hne|].
    intros p Hp. rewrite <- Hrow in Hp.
    apply (In_nth _ _ 0) in Hp. destruct Hp as [j [Hj <-]].
    rewrite row_length in Hj. rewrite nth_row by exact Hj. apply Hm. exact Hj.
Qed.

(** The rows of what [_softmax] returns are softmaxes. *)
Lemma softmax_inv (Z P : ndarray) :
  _softmax Z = inr P ->
  nrows P = nrows Z /\ ncols P = ncols Z /\ ncols Z <> O /\
  forall i, (i < nrows P)%nat -> row P i = Spec.Softmax (row Z i).
Proof.
  intros H.
  assert (Hc : ncols Z <> O).
  { intros E. unfold _softmax, max_axis1 in H. rewrite E in H. discriminate. }
  destruct (softmax_stage Z Hc) as [A [HA [Hr [Hcols Hrows]]]].
  rewrite H in HA. inversion HA; subst A.
  repeat split; try assumption. intros i Hi. apply Hrows. lia.
Qed.

(** On a well-formed artifact with four outputs, a fitted scaler of 1024
    dimensions and a decodable input, the prediction succeeds. *)
Lemma predict_well_formed (d : list (string * pyval)) (h1 h2 : nat)
    (W1 b1 W2 b2 W3 b3 : ndarray) (sc : StandardScaler)
    (data : image_data) (img : Image) (px : nat -> nat -> list nat) :
  well_formed d 1024 h1 h2 4 W1 b1 W2 b2 W3 b3 ->
  has_scaler d 1024 sc -> decodes_to data img px ->
  exists r, predict_brain_tumor (mkService (PyDict d)) data = inr r /\
            success r = true /\ List.length (probabilities r) = 4%nat.
Proof.
  intros Hwf Hsc Hdec.
  pose proof (preprocess_decodable d sc data img px Hsc Hdec) as HX.
  destruct (forward_pass_rows d 1024 h1 h2 4 W1 b1 W2 b2 W3 b3
              (features img px sc) Hwf) as [P [HP [Pr [Pc _]]]];
    [discriminate | reflexivity |].
  cbn [features nrows] in Pr.
  assert (Hsize : size P = 4%nat) by (unfold size; rewrite Pr, Pc; reflexivity).
  assert (Hi : argmax P = inr (argmax_upto (flat P) 3)).
  { unfold argmax. rewrite Hsize. reflexivity. }
  assert (Hc : amax P = inr (rmax_upto (flat P) 3)).
  { unfold amax. rewrite Hsize. reflexivity. }
  destruct (label_get_lt (argmax_upto (flat P) 3)) as [t Ht].
  { pose proof (argmax_upto_le (flat P) 3). lia. }
  pose proof (class_probabilities_lt P) as Hcp.
  assert (Hp0 : tolist_0 P = inr (row P O)).
  { unfold tolist_0, tolist. rewrite Pr. reflexivity. }
  eexists. split; [|split].
  - unfold predict_brain_tumor. py_run.
    rewrite Hcp by lia. py_run. reflexivity.
  - reflexivity.
  - cbn [probabilities]. rewrite row_length. exact Pc.
Qed.

End PredictLemmas.

(** ** Which exceptions the forward pass raises *)

Section ForwardErrors.
Import MLPredictionService.

Lemma subscript_error (m : pyobj) (key : string) (e : exn) :
  subscript m key = inl e -> from_library e.
Proof.
  unfold subscript, from_library.
  destruct m as [|d|]; [| destruct (dict_get d key) |];
    intros H; inversion H; discriminate.
Qed.

Lemma matmul_raises (A B : ndarray) (e : exn) :
  matmul A B = inl e -> from_library e.
Proof.
  unfold matmul, from_library. destruct (Nat.eqb _ _); intros H; inversion H.
  discriminate.
Qed.

Lemma broadcast2_raises (op : R -> R -> R) (A B : ndarray) (e : exn) :
  broadcast2 op A B = inl e -> from_library e.
Proof.
  unfold broadcast2, from_library.
  destruct (bdim _ _); [destruct (bdim _ _)|]; intros H; inversion H; discriminate.
Qed.

Lemma np_matmul_raises (A : ndarray) (w : pyval) (e : exn) :
  np_matmul A w = inl e -> from_library e.
Proof.
  destruct w; cbn [np_matmul]; [apply matmul_raises | |];
    intros H; inversion H; discriminate.
Qed.

Lemma np_add_raises (A : ndarray) (b : pyval) (e : exn) :
  np_add A b = inl e -> from_library e.
Proof.
  destruct b; cbn [np_add]; [apply broadcast2_raises | |];
    intros H; inversion H; discriminate.
Qed.

Lemma softmax_raises (Z : ndarray) (e : exn) :
  _softmax Z = inl e -> from_library e.
Proof.
  unfold _softmax, max_axis1.
  destruct (Nat.eqb _ _); py_step; [intros H; inversion H; discriminate|].
  destruct (subtract _ _) as [e'|D] eqn:ED; py_step.
  - intros H; inversion H; subst. eapply broadcast2_raises. exact ED.
  - apply broadcast2_raises.
Qed.

Lemma forward_pass_raises (self : MLPredictionService) (X : ndarray) (e : exn) :
  model self <> PyNone -> _forward_pass self X = inl e -> from_library e.
Proof.
  intros Hm. unfold _forward_pass.
  destruct (model self) eqn:Em; [congruence | |];
    repeat match goal with
           | |- bind ?c _ = inl _ -> _ =>
               destruct c eqn:?; py_step;
               [intros H; inversion H; subst;
                eauto using subscript_error, np_matmul_raises, np_add_raises,
                  softmax_raises |]
           | |- match ?c with inl _ => _ | inr _ => _ end = inl _ -> _ =>
               destruct c eqn:?;
               [intros H; inversion H; subst;
                eauto using subscript_error, np_matmul_raises, np_add_raises,
                  softmax_raises |]
           end;
    discriminate.
Qed.

End ForwardErrors.

(** ** An artifact with a fifth output *)

(** The bound of one quarter on the confidence needs four outputs: with the
    five-output artifact of all-zero parameters the prediction succeeds (the
    argmax is index 0, which has a label) and reports the confidence 1/5. *)
Section FiveOutputs.
Local Open Scope R_scope.
Import MLPredictionService.

Lemma dot_zero_r (a : list R) (l : list nat) :
  Spec.dot a (map (fun _ => 0) l) = 0.
Proof.
  unfold Spec.dot. revert l.
  induction a as [|x a IH]; intros [|k l]; cbn; try reflexivity.
  rewrite IH. lra.
Qed.

Lemma affine_zeros (a : list R) (m k : nat) :
  Spec.affine a (tolist (Fixture.zeros m k)) (row (Fixture.zeros 1 k) O)
  = map (fun _ => 0) (seq 0 k).
Proof.
  unfold Spec.affine. rewrite row_length. cbn [Fixture.zeros ncols].
  apply map_ext_in. intros j Hj. apply in_seq in Hj.
  rewrite column_tolist by (cbn; lia).
  cbn [Fixture.zeros item nrows]. rewrite dot_zero_r.
  rewrite nth_row by (cbn; lia). cbn. lra.
Qed.

Lemma Softmax_five_zeros :
  Spec.Softmax (map (fun _ => 0) (seq 0 5)) = map (fun _ => 1 / 5) (seq 0 5).
Proof.
  unfold Spec.Softmax, Spec.vmax, Spec.vsum. cbn [seq map fold_right hd].
  assert (Hmax : Rmax 0 0 = 0) by (apply Rmax_left; lra).
  rewrite !Hmax. replace (0 - 0) with 0 by lra. rewrite exp_0.
  repeat (f_equal; [lra|]). f_equal. lra.
Qed.

Lemma fixture5_well_formed :
  well_formed Fixture.artifact5 1024 8 8 5
    (Fixture.zeros 1024 8) (Fixture.zeros 1 8) (Fixture.zeros 8 8)
    (Fixture.zeros 1 8) (Fixture.zeros 8 5) (Fixture.zeros 1 5).
Proof. constructor; reflexivity. Qed.

Lemma five_outputs_confidence_fifth :
  exists r,
    @predict_brain_tumor Fixture.runtime (mkService (PyDict Fixture.artifact5))
      (Bytes "scan") = inr r /\
    success r = true /\
    List.length (probabilities r) = 5%nat /\
    confidence r = 1 / 5.
Proof.
  pose proof (@preprocess_decodable Fixture.runtime Fixture.artifact5
                Fixture.unit_scaler (Bytes "scan") Fixture.gray_picture
                (fun _ _ => [128%nat]) (conj eq_refl eq_refl)
                (conj eq_refl eq_refl)) as HX.
  destruct (forward_pass_rows Fixture.artifact5 1024 8 8 5 _ _ _ _ _ _
              (@features Fixture.runtime Fixture.gray_picture (fun _ _ => [128%nat])
                 Fixture.unit_scaler) fixture5_well_formed)
    as [P [HP [Pr [Pc Hrows]]]]; [discriminate | reflexivity |].
  cbn [features nrows] in Pr.
  assert (Hrow : row P O = map (fun _ => 1 / 5) (seq 0 5)).
  { rewrite Hrows by (cbn; lia). unfold Spec.forward.
    rewrite affine_zeros. apply Softmax_five_zeros. }
  assert (Hflat : forall j, (j <= 4)%nat -> flat P j = 1 / 5).
  { intros j Hj. rewrite flat_row0 by lia.
    rewrite <- nth_row by lia. rewrite Hrow.
    destruct j as [|[|[|[|[|j]]]]]; try lia; reflexivity. }
  assert (Hsize : size P = 5%nat) by (unfold size; rewrite Pr, Pc; reflexivity).
  assert (Harg : argmax_upto (flat P) 4 = O).
  { apply argmax_upto_const. intros j Hj. rewrite !Hflat by lia. reflexivity. }
  assert (Hi : argmax P = inr O).
  { unfold argmax. rewrite Hsize. cbn [Nat.eqb Nat.sub]. rewrite Harg. reflexivity. }
  assert (Hc : amax P = inr (1 / 5)).
  { unfold amax. rewrite Hsize. cbn [Nat.eqb Nat.sub].
    rewrite rmax_upto_argmax, Harg, Hflat by lia. reflexivity. }
  pose proof (class_probabilities_lt P) as Hcp.
  assert (Hp0 : tolist_0 P = inr (row P O)).
  { unfold tolist_0, tolist. rewrite Pr. reflexivity. }
  eexists. split; [|split; [|split]].
  - unfold predict_brain_tumor. py_run.
    cbn [label_get label_map Nat.eqb]. py_run.
    rewrite Hcp by lia. py_run. reflexivity.
  - reflexivity.
  - cbn [probabilities]. rewrite row_length. exact Pc.
  - reflexivity.
Qed.

End FiveOutputs.

(* ===================================================================== *)
(** * The claims of the specification *)
(* ===================================================================== *)

Section InferenceClaims.
Local Open Scope R_scope.
Import MLPredictionService.


(** C4. On a well-formed artifact with four outputs, for every input the
    forward pass returns rows of four probabilities: each is non-negative
    and the four sum to 1 (in exact arithmetic). *)
Theorem forward_pass_probabilities
    (d : list (string * pyval)) (n h1 h2 : nat)
    (W1 b1 W2 b2 W3 b3 X : ndarray) :
  well_formed d n h1 h2 4 W1 b1 W2 b2 W3 b3 ->
  ncols X = n ->
  exists A3, _forward_pass (mkService (PyDict d)) X = inr A3 /\
             shape A3 = (nrows X, 4%nat) /\
             forall i, (i < nrows X)%nat ->
               (forall j, (j < 4)%nat -> 0 <= item A3 i j) /\
               item A3 i 0 + item A3 i 1 + item A3 i 2 + item A3 i 3 = 1.
Proof.
  intros Hwf HX.
  destruct (forward_pass_rows d n h1 h2 4 W1 b1 W2 b2 W3 b3 X Hwf) as
    [A3 [HA3 [Hr [Hc Hrows]]]]; [discriminate | exact HX |].
  exists A3. split; [exact HA3|]. split.
  - unfold shape. rewrite Hr, Hc. reflexivity.
  - intros i Hi.
    destruct (softmax_row_facts A3 i _ (Hrows i Hi)) as [Hpos [Hsum _]];
      [rewrite Hc; discriminate|].
    rewrite Hc in Hpos, Hsum. split.
    + intros j Hj. apply Rlt_le. apply Hpos. exact Hj.
    + unfold rsum in Hsum. cbn [seq map fold_right] in Hsum. lra.
Qed.

End InferenceClaims.

Section FixtureFacts.
Import MLPredictionService.

Lemma fixture_well_formed :
  well_formed Fixture.artifact 1024 8 8 4
    (Fixture.zeros 1024 8) (Fixture.zeros 1 8) (Fixture.zeros 8 8)
    (Fixture.zeros 1 8) (Fixture.zeros 8 4) (Fixture.zeros 1 4).
Proof. constructor; reflexivity. Defined.

Lemma fixture_has_scaler : has_scaler Fixture.artifact 1024 Fixture.unit_scaler.
Proof. split; reflexivity. Defined.

Lemma fixture_decodes :
  @decodes_to Fixture.runtime (Bytes "scan") Fixture.gray_picture (fun _ _ => [128]).
Proof. split; reflexivity. Defined.

End FixtureFacts.

Section InferenceWitnesses.
Import MLPredictionService.


Lemma forward_pass_probabilities_witness :
  exists A3, _forward_pass Fixture.service (Fixture.zeros 1 1024) = inr A3 /\
             shape A3 = (1, 4) /\
             forall i, i < 1 ->
               (forall j, j < 4 -> (0 <= item A3 i j)%R) /\
               (item A3 i 0 + item A3 i 1 + item A3 i 2 + item A3 i 3 = 1)%R.
Proof.
  apply (forward_pass_probabilities Fixture.artifact 1024 8 8
           (Fixture.zeros 1024 8) (Fixture.zeros 1 8) (Fixture.zeros 8 8)
           (Fixture.zeros 1 8) (Fixture.zeros 8 4) (Fixture.zeros 1 4)
           (Fixture.zeros 1 1024)).
  - exact fixture_well_formed.
  - reflexivity.
Defined.

End InferenceWitnesses.

Section PredictionClaims.
Context {rt : Runtime}.
Local Open Scope R_scope.
Import MLPredictionService.

(** C2. Whatever the service object and the input are (undecodable bytes
    and unsupported input types included), [predict_brain_tumor] returns a
    dictionary and raises nothing. When anything upstream raised, the
    dictionary has [success = false], a non-empty error message, confidence
    0.0 and empty probability fields. *)
Theorem predict_always_returns_result
    (self : MLPredictionService) (data : image_data) :
  exists r, predict_brain_tumor self data = inr r /\
    (success r = true \/ exists e, r = failed_prediction e) /\
    (success r = false ->
       (exists msg, error r = Some msg /\ msg <> ""%string) /\
       confidence r = 0 /\ probabilities r = [] /\ class_probabilities r = [] /\
       predicted_class r = None /\ tumor_type r = None) /\
    (forall e, _preprocess_image self data = inl e -> r = failed_prediction e) /\
    (forall X e, _preprocess_image self data = inr X ->
                 _forward_pass self X = inl e -> r = failed_prediction e) /\
    (forall b e, data = Bytes b -> Image_open b = inl e -> success r = false) /\
    (forall t, data = Unsupported t -> success r = false).
Proof.
  assert (Hpre : forall e, _preprocess_image self data = inl e ->
                   predict_brain_tumor self data = inr (failed_prediction e)).
  { intros e He. unfold predict_brain_tumor. py_run. reflexivity. }
  assert (Hfwd : forall X e, _preprocess_image self data = inr X ->
                   _forward_pass self X = inl e ->
                   predict_brain_tumor self data = inr (failed_prediction e)).
  { intros X e HX He. unfold predict_brain_tumor. py_run. reflexivity. }
  destruct (predict_cases self data) as
    [[e He] | [X [P [i [t [c [cp [p0 [HX [HP [_ [_ [_ [_ [_ Hr]]]]]]]]]]]]]]].
  - exists (failed_prediction e). split; [exact He|].
    split; [right; exists e; reflexivity|].
    split; [intros _; cbn; repeat split; eexists; split;
            [reflexivity | discriminate]|].
    split; [intros e' He'; apply Hpre in He'; congruence|].
    split; [intros X e' HX He'; pose proof (Hfwd X e' HX He'); congruence|].
    split; reflexivity.
  - eexists. split; [exact Hr|].
    split; [left; reflexivity|].
    split; [cbn; discriminate|].
    split; [intros e He; congruence|].
    split; [intros X' e HX' He; congruence|].
    split.
    + intros b e -> Hopen. exfalso.
      unfold _preprocess_image in HX. rewrite Hopen in HX. discriminate.
    + intros truth ->. exfalso.
      unfold _preprocess_image in HX. discriminate.
Qed.

(** C3. In every successful prediction the reported index is the argmax of
    the reported probability row (the first row of what the forward pass
    returned), ties going to the lowest index; the reported label is the one
    at that index in the order glioma, meningioma, notumor, pituitary; the
    confidence is the probability at that index; the class-probability
    mapping pairs the labels, in that order, with the first four
    probabilities. *)
Theorem prediction_reports_argmax
    (self : MLPredictionService) (data : image_data) (r : PredictionResult) :
  predict_brain_tumor self data = inr r -> success r = true ->
  exists i,
    predicted_class r = Some i /\
    Spec.first_argmax (probabilities r) i /\
    tumor_type r = nth_error Spec.labels i /\
    confidence r = nth i (probabilities r) 0 /\
    class_probabilities r = combine Spec.labels (probabilities r) /\
    exists X P, _preprocess_image self data = inr X /\
                _forward_pass self X = inr P /\
                probabilities r = row P O.
Proof.
  intros Hr Hs.
  destruct (predict_cases self data) as
    [[e He] | [X [P [i [t [c [cp [p0 [HX [HP [Hi [Ht [Hc [Hcp [Hp0 Hr']]]]]]]]]]]]]]].
  { rewrite He in Hr. inversion Hr; subst r. discriminate. }
  rewrite Hr' in Hr. inversion Hr; subst r. clear Hr Hs.
  cbn [predicted_class probabilities tumor_type confidence class_probabilities].
  apply argmax_inv in Hi. destruct Hi as [Hsz Hi].
  apply label_get_inv in Ht. destruct Ht as [Hi4 Ht].
  apply amax_inv in Hc. destruct Hc as [_ Hc].
  apply class_probabilities_inv in Hcp. destruct Hcp as [Hrow [Hcol Hcp]].
  apply tolist_0_inv in Hp0. destruct Hp0 as [_ Hp0].
  exists i. subst p0.
  split; [reflexivity|].
  split; [apply first_argmax_row0; [exact Hrow | lia | exact Hi]|].
  split; [symmetry; exact Ht|].
  split.
  - rewrite nth_row by lia. rewrite Hc, <- Hi. apply flat_row0. lia.
  - split.
    + rewrite Hcp. unfold row.
      destruct (ncols P) as [|[|[|[|c']]]]; try lia. reflexivity.
    + exists X, P. auto.
Qed.

(** C5, as the code has it. In exact arithmetic, in every successful
    prediction that reports four probabilities (the four-way softmax output,
    which is what a well-formed artifact produces), the reported confidence
    is at least 0.25. Nothing in the code checks the number of outputs, and
    with five of them the bound fails. *)
Theorem confidence_at_least_quarter
    (self : MLPredictionService) (data : image_data) (r : PredictionResult) :
  predict_brain_tumor self data = inr r -> success r = true ->
  List.length (probabilities r) = 4%nat ->
  1 / 4 <= confidence r.
Proof.
  intros Hr Hs Hlen.
  destruct (predict_cases self data) as
    [[e He] | [X [P [i [t [c [cp [p0 [HX [HP [Hi [Ht [Hc [Hcp [Hp0 Hr']]]]]]]]]]]]]]].
  { rewrite He in Hr. inversion Hr; subst r. discriminate. }
  rewrite Hr' in Hr. inversion Hr; subst r. clear Hr Hs.
  cbn [probabilities confidence] in *.
  apply amax_inv in Hc. destruct Hc as [Hsz Hc].
  apply tolist_0_inv in Hp0. destruct Hp0 as [Hrow ->].
  rewrite row_length in Hlen.
  destruct (forward_pass_inv self X P HP) as [Z3 HZ3].
  apply softmax_inv in HZ3. destruct HZ3 as [_ [_ [_ Hrows]]].
  destruct (softmax_row_facts P O _ (Hrows O Hrow)) as [_ [_ Hbound]];
    [rewrite Hlen; discriminate|].
  rewrite Hlen in Hbound.
  replace (INR 4) with 4 in Hbound by (simpl; lra).
  apply Hbound. intros j Hj.
  rewrite <- flat_row0 by lia. rewrite Hc.
  apply argmax_upto_max. unfold size. nia.
Qed.

(** C7. An input whose number of columns differs from the number of rows of
    the first weight matrix makes the forward pass raise (the matrix
    product's [ValueError] when the artifact holds all six parameters);
    [predict_brain_tumor] reports it as a [success = false] result, and no
    output is produced from the mismatched input. *)
Theorem input_shape_mismatch_fails
    (self : MLPredictionService) (d : list (string * pyval)) (W1 X : ndarray) :
  model self = PyDict d -> dict_get d "W1" = Some (VArr W1) ->
  ncols X <> nrows W1 ->
  (exists e, _forward_pass self X = inl e) /\
  (dict_get d "b1" <> None -> dict_get d "W2" <> None ->
   dict_get d "b2" <> None -> dict_get d "W3" <> None ->
   dict_get d "b3" <> None -> _forward_pass self X = inl matmul_error) /\
  (forall data, _preprocess_image self data = inr X ->
     exists e, predict_brain_tumor self data = inr (failed_prediction e)).
Proof.
  intros Hm HW1 Hne.
  assert (Hmm : matmul X W1 = inl matmul_error).
  { unfold matmul. destruct (Nat.eqb_spec (ncols X) (nrows W1)); [contradiction|].
    reflexivity. }
  assert (Hraise : exists e, _forward_pass self X = inl e /\
            (dict_get d "b1" <> None -> dict_get d "W2" <> None ->
             dict_get d "b2" <> None -> dict_get d "W3" <> None ->
             dict_get d "b3" <> None -> e = matmul_error)).
  { unfold _forward_pass, subscript. rewrite Hm, HW1. py_step.
    destruct (dict_get d "b1"); py_step;
      [|eexists; split; [reflexivity | intros; congruence]].
    destruct (dict_get d "W2"); py_step;
      [|eexists; split; [reflexivity | intros; congruence]].
    destruct (dict_get d "b2"); py_step;
      [|eexists; split; [reflexivity | intros; congruence]].
    destruct (dict_get d "W3"); py_step;
      [|eexists; split; [reflexivity | intros; congruence]].
    destruct (dict_get d "b3"); py_step;
      [|eexists; split; [reflexivity | intros; congruence]].
    cbn [np_matmul]. rewrite Hmm. py_step.
    eexists; split; reflexivity. }
  destruct Hraise as [e [He Hall]].
  split; [exists e; exact He|].
  split; [intros; rewrite He; f_equal; auto|].
  intros data HX. exists e.
  unfold predict_brain_tumor. py_run. reflexivity.
Qed.

End PredictionClaims.

Section PreprocessClaims.
Context {rt : Runtime}.
Local Open Scope R_scope.
Import MLPredictionService.

(** C6. For every decodable input, with an artifact whose scaler was fitted
    on 1024 dimensions, preprocessing returns an array of shape 1 by 1024
    computed from the pixels of the picture: each pixel is turned into one
    gray level by the luminance of the picture's mode (mode L, one band),
    the gray picture is resampled to exactly 32 by 32, and the entry at
    position [32 * y + x] (row-major order) is the gray level at column [x],
    line [y] of the resampled picture, an 8-bit value that a 32-bit float
    holds exactly, minus the scaler's mean and divided by the scaler's scale
    of that position. *)
Theorem preprocess_pipeline
    (d : list (string * pyval)) (sc : StandardScaler)
    (data : image_data) (img : Image) (px : nat -> nat -> list nat) :
  has_scaler d 1024 sc -> decodes_to data img px ->
  let gray_px := fun x y => [luminance (mode img) (px x y)] in
  let small_px := resample (width img) (height img) gray_px 32 32 in
  exists gray resized X,
    PIL.convert_L img = inr gray /\ mode gray = "L"%string /\
    load gray = inr gray_px /\
    PIL.resize gray 32 32 = inr resized /\
    mode resized = "L"%string /\ width resized = 32%nat /\ height resized = 32%nat /\
    load resized = inr small_px /\
    _preprocess_image (mkService (PyDict d)) data = inr X /\
    shape X = (1%nat, 1024%nat) /\
    (forall y x, (y < 32)%nat -> (x < 32)%nat ->
       item X O (32 * y + x) =
       (INR (hd O (small_px x y)) - mean_ sc (32 * y + x)) / scale_ sc (32 * y + x)).
Proof.
  intros Hsc Hdec gray_px small_px.
  pose proof (preprocess_decodable d sc data img px Hsc Hdec) as HX.
  destruct Hdec as [_ Hload].
  unfold PIL.convert_L. rewrite Hload. py_step.
  eexists. unfold PIL.resize. cbn [load]. py_step.
  eexists. exists (features img px sc).
  split; [reflexivity|]. split; [reflexivity|].
  split; [reflexivity|]. split; [reflexivity|].
  split; [reflexivity|]. split; [reflexivity|].
  split; [reflexivity|]. split; [reflexivity|].
  split; [exact HX|]. split; [reflexivity|].
  intros y x Hy Hx.
  cbn [features item]. unfold gray_32x32.
  replace ((32 * y + x) / 32)%nat with y
    by (apply (Nat.div_unique _ 32 y x); lia).
  replace ((32 * y + x) mod 32)%nat with x
    by (apply (Nat.mod_unique _ 32 y x); lia).
  reflexivity.
Qed.

End PreprocessClaims.

Section StartupClaims.
Context {rt : Runtime}.
Import MLPredictionService.

(** C8. When the artifact file is missing, cannot be read or cannot be
    deserialized, the constructor raises; the module-level
    [ml_service = MLPredictionService()] runs it outside of any handler, so
    the import fails and there is no service object that could answer a
    prediction. *)
Theorem unusable_artifact_fails_startup :
  artifact_unusable ->
  exists msg, ml_service = inl (mkExn Exception msg) /\
              msg <> ""%string /\
              (forall self, ml_service <> inr self) /\
              (fs model_path = Absent ->
               msg = "ML model file not found. Please ensure the model is properly installed."%string).
Proof.
  unfold ml_service, __init__, _load_model, open_rb.
  intros [Habs | [[why Hwhy] | [bytes [e [Hfile Hload]]]]].
  - rewrite Habs. py_step. cbn [isinstance exn_cls exn_class_eqb].
    eexists. split; [reflexivity|].
    split; [discriminate|]. split; [discriminate|]. reflexivity.
  - rewrite Hwhy. py_step. cbn [isinstance exn_cls exn_class_eqb].
    eexists. split; [reflexivity|].
    split; [discriminate|]. split; [discriminate|]. congruence.
  - rewrite Hfile. py_step. rewrite Hload. py_step.
    destruct (isinstance e FileNotFoundError);
      (eexists; split; [reflexivity|];
       split; [discriminate|]; split; [discriminate|]; congruence).
Qed.

(** C9, as the code has it. A constructor that returned normally stored in
    [self.model] the object [pickle.load] returned for the artifact, and no
    method assigns [self.model] afterwards. When that object is not [None],
    [get_model_info] reports the model as loaded and [_forward_pass] never
    raises its "Model not loaded" exception. *)
Theorem constructed_model_is_unpickled_object (self : MLPredictionService) :
  __init__ = inr self ->
  (exists bytes, fs model_path = Content bytes /\
                 pickle_load bytes = inr (model self)) /\
  (model self <> PyNone ->
     loaded (get_model_info self) = true /\
     info_error (get_model_info self) = None /\
     forall X, _forward_pass self X <> inl model_not_loaded).
Proof.
  unfold __init__, _load_model, open_rb. intros H. split.
  - destruct (fs model_path) as [|why|bytes]; cbn in H; try discriminate.
    exists bytes. split; [reflexivity|].
    destruct (pickle_load bytes) as [e|m]; cbn in H.
    + match type of H with
      | context [if ?c then _ else _] => destruct c
      end; discriminate.
    + inversion H. reflexivity.
  - intros Hm. split; [|split].
    + unfold get_model_info. destruct (model self); [congruence | reflexivity..].
    + unfold get_model_info. destruct (model self); [congruence | reflexivity..].
    + intros X HX. apply forward_pass_raises in HX; [|exact Hm].
      apply HX. reflexivity.
Qed.

End StartupClaims.

Section ControllerClaims.
Context {rt : Runtime} {http : Http}.
Import MLPredictionService.

(** C10. In [predict_and_save_brain_tumor], when the prediction succeeds and
    the repository update returns [None] (or any other false value), the
    answer is status 200 with [success = true], the whole prediction under
    [data] and a warning that the results could not be saved. *)
Theorem failed_save_keeps_prediction
    (ml_service : MLPredictionService) (data : image_data) (image_id : string)
    (r : PredictionResult) (u : json) :
  ImageController.data_truthy data = true ->
  ImageController.id_truthy (Some image_id) = true ->
  predict_brain_tumor ml_service data = inr r -> success r = true ->
  ImageRepository.update_image_information image_id r = inr u ->
  truthy u = false ->
  ImageController.predict_and_save_brain_tumor ml_service data (Some image_id) =
  inr (ImageController.mkAnswer
         (Some "Brain tumor prediction completed but failed to save to database"%string)
         None true (Some r) None
         (Some "Prediction results could not be saved to database"%string),
       200).
Proof.
  intros Hd Hid Hr Hs Hu Ht.
  unfold ImageController.predict_and_save_brain_tumor.
  rewrite Hd, Hid. cbn [negb]. py_run.
  rewrite Hs. py_run. rewrite Ht. reflexivity.
Qed.

End ControllerClaims.

(** ** The claims on concrete inputs *)

Section Witnesses.
Import MLPredictionService.

Lemma prediction_reports_argmax_witness :
  exists r i,
    @predict_brain_tumor Fixture.runtime Fixture.service (Bytes "scan") = inr r /\
    success r = true /\
    predicted_class r = Some i /\
    Spec.first_argmax (probabilities r) i /\
    tumor_type r = nth_error Spec.labels i /\
    confidence r = nth i (probabilities r) 0%R /\
    class_probabilities r = combine Spec.labels (probabilities r).
Proof.
  destruct (@predict_well_formed Fixture.runtime Fixture.artifact 8 8 _ _ _ _ _ _
              Fixture.unit_scaler (Bytes "scan") Fixture.gray_picture
              (fun _ _ => [128])
              fixture_well_formed fixture_has_scaler fixture_decodes)
    as [r [Hr [Hs _]]].
  destruct (@prediction_reports_argmax Fixture.runtime Fixture.service
              (Bytes "scan") r Hr Hs) as [i [H1 [H2 [H3 [H4 [H5 _]]]]]].
  exists r, i.
  exact (conj Hr (conj Hs (conj H1 (conj H2 (conj H3 (conj H4 H5)))))).
Defined.

Lemma confidence_at_least_quarter_witness :
  exists r,
    @predict_brain_tumor Fixture.runtime Fixture.service (Bytes "scan") = inr r /\
    success r = true /\
    List.length (probabilities r) = 4 /\
    (1 / 4 <= confidence r)%R.
Proof.
  destruct (@predict_well_formed Fixture.runtime Fixture.artifact 8 8 _ _ _ _ _ _
              Fixture.unit_scaler (Bytes "scan") Fixture.gray_picture
              (fun _ _ => [128])
              fixture_well_formed fixture_has_scaler fixture_decodes)
    as [r [Hr [Hs Hl]]].
  exists r. split; [exact Hr|]. split; [exact Hs|]. split; [exact Hl|].
  exact (@confidence_at_least_quarter Fixture.runtime Fixture.service
           (Bytes "scan") r Hr Hs Hl).
Defined.

Lemma preprocess_pipeline_witness :
  has_scaler Fixture.artifact 1024 Fixture.unit_scaler /\
  @decodes_to Fixture.runtime (Bytes "scan") Fixture.gray_picture (fun _ _ => [128]) /\
  exists X,
    @_preprocess_image Fixture.runtime Fixture.service (Bytes "scan") = inr X /\
    shape X = (1, 1024) /\
    item X 0 (32 * 3 + 5) = ((INR 128 - 0) / 1)%R.
Proof.
  split; [exact fixture_has_scaler|]. split; [exact fixture_decodes|].
  destruct (@preprocess_pipeline Fixture.runtime Fixture.artifact
              Fixture.unit_scaler (Bytes "scan") Fixture.gray_picture
              (fun _ _ => [128]) fixture_has_scaler fixture_decodes)
    as [gray [resized [X [_ [_ [_ [_ [_ [_ [_ [_ [HX [Hshape Hitem]]]]]]]]]]]]].
  exists X. split; [exact HX|]. split; [exact Hshape|].
  apply (Hitem 3 5); lia.
Defined.

Lemma input_shape_mismatch_fails_witness :
  ncols (Fixture.zeros 1 1000) <> nrows (Fixture.zeros 1024 8) /\
  _forward_pass Fixture.service (Fixture.zeros 1 1000) = inl matmul_error.
Proof.
  assert (Hne : ncols (Fixture.zeros 1 1000) <> nrows (Fixture.zeros 1024 8))
    by (cbn; lia).
  split; [exact Hne|].
  destruct (@input_shape_mismatch_fails Fixture.runtime Fixture.service
              Fixture.artifact (Fixture.zeros 1024 8) (Fixture.zeros 1 1000)
              eq_refl eq_refl Hne) as [_ [Hall _]].
  apply Hall; discriminate.
Defined.

Lemma unusable_artifact_fails_startup_witness :
  @artifact_unusable Fixture.runtime_missing /\
  exists msg, @ml_service Fixture.runtime_missing = inl (mkExn Exception msg) /\
              msg <> ""%string.
Proof.
  assert (Hun : @artifact_unusable Fixture.runtime_missing)
    by (left; reflexivity).
  split; [exact Hun|].
  destruct (@unusable_artifact_fails_startup Fixture.runtime_missing Hun)
    as [msg [H1 [H2 _]]].
  exists msg. split; assumption.
Defined.

(** C5, as the claim states it, fails: with the five-output artifact of
    all-zero parameters the prediction of a decodable picture succeeds and
    reports the confidence 1/5, which is below 0.25. *)
Lemma five_outputs_break_quarter_bound :
  exists r,
    @predict_brain_tumor Fixture.runtime (mkService (PyDict Fixture.artifact5))
      (Bytes "scan") = inr r /\
    success r = true /\
    (confidence r < 1 / 4)%R.
Proof.
  destruct five_outputs_confidence_fifth as [r [Hr [Hs [_ Hc]]]].
  exists r. split; [exact Hr|]. split; [exact Hs|]. rewrite Hc. lra.
Qed.

(** C9, as the claim states it, fails: an artifact file that holds the
    pickle of [None] is loaded without an exception, the constructor returns
    normally with [self.model] equal to [None], and the "Model not loaded"
    branches of [get_model_info] and [_forward_pass] are taken. *)
Lemma constructed_model_may_be_None :
  exists self,
    @__init__ Fixture.runtime_none = inr self /\
    model self = PyNone /\
    loaded (get_model_info self) = false /\
    info_error (get_model_info self) = Some "Model not loaded"%string /\
    _forward_pass self (Fixture.zeros 1 1024) = inl model_not_loaded.
Proof.
  exists (mkService PyNone). repeat split; reflexivity.
Qed.

Lemma constructed_model_is_unpickled_object_witness :
  @__init__ Fixture.runtime = inr Fixture.service /\
  loaded (get_model_info Fixture.service) = true.
Proof.
  assert (Hinit : @__init__ Fixture.runtime = inr Fixture.service)
    by reflexivity.
  split; [exact Hinit|].
  destruct (@constructed_model_is_unpickled_object Fixture.runtime
              Fixture.service Hinit) as [_ Hloaded].
  apply Hloaded. discriminate.
Defined.

Lemma failed_save_keeps_prediction_witness :
  exists r,
    @predict_brain_tumor Fixture.runtime Fixture.service (Bytes "scan") = inr r /\
    success r = true /\
    @ImageRepository.update_image_information Fixture.http_down "img-1" r = inr JNull /\
    @ImageController.predict_and_save_brain_tumor Fixture.runtime Fixture.http_down
      Fixture.service (Bytes "scan") (Some "img-1"%string) =
    inr (ImageController.mkAnswer
           (Some "Brain tumor prediction completed but failed to save to database"%string)
           None true (Some r) None
           (Some "Prediction results could not be saved to database"%string),
         200).
Proof.
  destruct (@predict_well_formed Fixture.runtime Fixture.artifact 8 8 _ _ _ _ _ _
              Fixture.unit_scaler (Bytes "scan") Fixture.gray_picture
              (fun _ _ => [128])
              fixture_well_formed fixture_has_scaler fixture_decodes)
    as [r [Hr [Hs _]]].
  exists r. split; [exact Hr|]. split; [exact Hs|]. split; [reflexivity|].
  exact (@failed_save_keeps_prediction Fixture.runtime Fixture.http_down
           Fixture.service (Bytes "scan") "img-1" r JNull
           eq_refl eq_refl Hr Hs eq_refl eq_refl).
Defined.

End Witnesses.

(* ===================================================================== *)
(** * Further properties of the code *)
(* ===================================================================== *)

(** ** The activations *)

Section Activations.
Local Open Scope R_scope.
Import MLPredictionService.

Lemma rsum_ext (f g : nat -> R) (n : nat) :
  (forall k, (k < n)%nat -> f k = g k) -> rsum f n = rsum g n.
Proof.
  intros H. unfold rsum. f_equal. apply map_ext_in.
  intros k Hk. apply in_seq in Hk. apply H. lia.
Qed.

Lemma rsum_scale (f : nat -> R) (c : R) (n : nat) :
  rsum (fun k => f k * c) n = rsum f n * c.
Proof.
  unfold rsum. induction (seq 0 n) as [|k l IH]; cbn; [ring|].
  rewrite IH. ring.
Qed.

Lemma rsum_pos (f : nat -> R) (n : nat) :
  n <> O -> (forall k, 0 < f k) -> 0 < rsum f n.
Proof.
  intros Hn Hf. unfold rsum. apply vsum_pos.
  - destruct n; [congruence | discriminate].
  - intros x Hx. apply in_map_iff in Hx. destruct Hx as [k [<- _]]. apply Hf.
Qed.

Lemma vsum_ge_member (l : list R) (y : R) :
  (forall x, In x l -> 0 < x) -> In y l -> y <= Spec.vsum l.
Proof.
  unfold Spec.vsum. induction l as [|x l IH]; intros Hp Hy; [destruct Hy|].
  cbn. assert (Hx : 0 < x) by (apply Hp; left; reflexivity).
  assert (Hrest : 0 <= fold_right Rplus 0 l).
  { destruct l as [|z l']; [cbn; lra|]. apply Rlt_le.
    apply (vsum_pos (z :: l')); [discriminate|].
    intros w Hw. apply Hp. right. exact Hw. }
  destruct Hy as [->|Hy]; [lra|].
  assert (y <= fold_right Rplus 0 l).
  { apply IH; [|exact Hy]. intros w Hw. apply Hp. right. exact Hw. }
  lra.
Qed.

(** What [_softmax] returns, entry by entry, with the row maximum it
    subtracts. *)
Lemma softmax_items (Z : ndarray) :
  ncols Z <> O ->
  exists A, _softmax Z = inr A /\
            nrows A = nrows Z /\ ncols A = ncols Z /\
            forall i j, (i < nrows Z)%nat -> (j < ncols Z)%nat ->
              item A i j =
              exp (item Z i j - rmax_upto (item Z i) (ncols Z - 1))
              / rsum (fun k => exp (item Z i k - rmax_upto (item Z i) (ncols Z - 1)))
                     (ncols Z).
Proof.
  intros Hc. unfold _softmax, max_axis1.
  destruct (Nat.eqb_spec (ncols Z) 0) as [E|_]; [congruence|].
  py_step.
  destruct (broadcast2_col_vector Rminus Z
              (mkArr (nrows Z) 1 (fun i _ => rmax_upto (item Z i) (ncols Z - 1))))
    as [D [HD [HDr [HDc HDitem]]]]; [reflexivity | reflexivity |].
  cbn [item] in HDitem.
  unfold subtract. rewrite HD.
  destruct (broadcast2_col_vector Rdiv (np_exp D) (sum_axis1 (np_exp D)))
    as [A [HA [HAr [HAc HAitem]]]]; [reflexivity | reflexivity |].
  cbn [np_exp amap sum_axis1 nrows ncols item] in HAr, HAc, HAitem.
  exists A. split; [exact HA|].
  split; [congruence|]. split; [congruence|].
  intros i j Hi Hj.
  rewrite HAitem by lia. rewrite HDitem by assumption.
  rewrite HDc. f_equal. apply rsum_ext. intros k Hk.
  rewrite HDitem by assumption. reflexivity.
Qed.

(** X1. On an array with at least one column [_softmax] returns an array of
    the same shape whose entries are the plain softmax
    [exp(x_j) / sum_k exp(x_k)] of each row: subtracting the row maximum
    does not change the value. *)
Theorem softmax_is_plain_softmax (Z : ndarray) :
  ncols Z <> O ->
  exists A, _softmax Z = inr A /\ shape A = shape Z /\
            forall i j, (i < nrows Z)%nat -> (j < ncols Z)%nat ->
              item A i j
              = exp (item Z i j) / rsum (fun k => exp (item Z i k)) (ncols Z).
Proof.
  intros Hc.
  destruct (softmax_items Z Hc) as [A [HA [Hr [Hcols Hitems]]]].
  exists A. split; [exact HA|]. split; [unfold shape; congruence|].
  intros i j Hi Hj. rewrite Hitems by assumption.
  set (m := rmax_upto (item Z i) (ncols Z - 1)).
  assert (Hexp : forall x, exp (x - m) = exp x * / exp m).
  { intros x. unfold Rminus. rewrite exp_plus, exp_Ropp. reflexivity. }
  rewrite Hexp.
  rewrite (rsum_ext _ (fun k => exp (item Z i k) * / exp m))
    by (intros k _; apply Hexp).
  rewrite rsum_scale.
  pose proof (exp_pos m) as Hm.
  pose proof (rsum_pos (fun k => exp (item Z i k)) (ncols Z) Hc
                (fun k => exp_pos _)) as Hs.
  field. split; lra.
Qed.

(** X2. In exact arithmetic, [_softmax] never reverses the order of the
    entries of a row: an input that is not larger gets a probability that is
    not larger (so equal inputs get equal probabilities), and every entry
    lies between 0 and 1. The statement is not strict: rounding can give two
    different inputs the same probability, 0.0 included. *)
Theorem softmax_keeps_order (Z A : ndarray) (i j k : nat) :
  _softmax Z = inr A -> (i < nrows Z)%nat -> (j < ncols Z)%nat -> (k < ncols Z)%nat ->
  (item Z i j <= item Z i k -> item A i j <= item A i k) /\
  (item Z i j = item Z i k -> item A i j = item A i k) /\
  0 <= item A i j <= 1.
Proof.
  intros HA Hi Hj Hk.
  assert (Hc : ncols Z <> O) by lia.
  destruct (softmax_items Z Hc) as [A' [HA' [_ [_ Hitems]]]].
  rewrite HA in HA'. inversion HA'; subst A'. clear HA'.
  rewrite !Hitems by assumption.
  set (m := rmax_upto (item Z i) (ncols Z - 1)).
  set (s := rsum (fun k0 => exp (item Z i k0 - m)) (ncols Z)).
  assert (Hs : 0 < s) by (apply rsum_pos; [exact Hc | intros; apply exp_pos]).
  assert (Hle : exp (item Z i j - m) <= s).
  { unfold s, rsum. apply vsum_ge_member.
    - intros x Hx. apply in_map_iff in Hx. destruct Hx as [k0 [<- _]].
      apply exp_pos.
    - apply in_map_iff. exists j. split; [reflexivity|]. apply in_seq. lia. }
  pose proof (exp_pos (item Z i j - m)) as Hpos.
  split; [|split; [|split]].
  - intros Hjk. unfold Rdiv. apply Rmult_le_compat_r.
    + apply Rlt_le. apply Rinv_0_lt_compat. exact Hs.
    + destruct Hjk as [Hlt|Heq].
      * apply Rlt_le. apply exp_increasing. lra.
      * rewrite Heq. apply Rle_refl.
  - intros ->. reflexivity.
  - apply Rlt_le. apply Rdiv_lt_0_compat; assumption.
  - unfold Rdiv. apply Rmult_le_reg_r with s; [exact Hs|].
    rewrite Rmult_assoc, Rinv_l by lra. lra.
Qed.

(** X3. In exact arithmetic, [_leaky_relu] with the slope 0.01 of the
    forward pass keeps the shape and never reverses the order of two
    entries; a positive entry is returned unchanged, and an entry that is
    not positive is moved towards 0 without passing it, so no entry grows in
    absolute value. The statement is not strict: the rounded product can
    give two different negative inputs the same result. *)
Theorem leaky_relu_monotone (Z : ndarray) (i j i' j' : nat) :
  shape (_leaky_relu Z (1 / 100)) = shape Z /\
  (item Z i j <= item Z i' j' ->
   item (_leaky_relu Z (1 / 100)) i j <= item (_leaky_relu Z (1 / 100)) i' j') /\
  (0 < item Z i j -> item (_leaky_relu Z (1 / 100)) i j = item Z i j) /\
  (item Z i j <= 0 ->
   item Z i j <= item (_leaky_relu Z (1 / 100)) i j <= 0) /\
  Rabs (item (_leaky_relu Z (1 / 100)) i j) <= Rabs (item Z i j).
Proof.
  cbn [_leaky_relu amap item shape nrows ncols].
  split; [reflexivity|].
  destruct (Rgt_dec (item Z i j) 0) as [Hp|Hn];
    destruct (Rgt_dec (item Z i' j') 0) as [Hp'|Hn'].
  all: repeat split; intros; try lra.
  all: unfold Rabs; repeat destruct (Rcase_abs _); lra.
Qed.

End Activations.

(** ** The forward pass and preprocessing: errors and invariants *)

Section ServiceExtras.
Context {rt : Runtime}.
Local Open Scope R_scope.
Import MLPredictionService.

(** X4. The six parameters are looked up before any arithmetic: when the
    artifact is a dictionary that lacks one of them, the forward pass raises
    a [KeyError] that names a missing key, whatever the input and the other
    entries are. *)
Theorem forward_pass_missing_parameter
    (self : MLPredictionService) (d : list (string * pyval)) (X : ndarray)
    (key : string) :
  model self = PyDict d ->
  In key ["W1"; "b1"; "W2"; "b2"; "W3"; "b3"]%string -> dict_get d key = None ->
  exists missing,
    In missing ["W1"; "b1"; "W2"; "b2"; "W3"; "b3"]%string /\
    dict_get d missing = None /\
    _forward_pass self X = inl (mkExn KeyError (repr_str missing)).
Proof.
  intros Hm Hin Hnone.
  unfold _forward_pass, subscript. rewrite Hm.
  destruct (dict_get d "W1") eqn:E1;
    [|exists "W1"%string; cbn; auto 10].
  destruct (dict_get d "b1") eqn:E2;
    [|exists "b1"%string; cbn; auto 10].
  destruct (dict_get d "W2") eqn:E3;
    [|exists "W2"%string; cbn; auto 10].
  destruct (dict_get d "b2") eqn:E4;
    [|exists "b2"%string; cbn; auto 10].
  destruct (dict_get d "W3") eqn:E5;
    [|exists "W3"%string; cbn; auto 10].
  destruct (dict_get d "b3") eqn:E6;
    [|exists "b3"%string; cbn; auto 10].
  exfalso. cbn in Hin.
  destruct Hin as [<-|[<-|[<-|[<-|[<-|[<-|[]]]]]]]; congruence.
Qed.

(** X5. The rows of a batch are processed independently: on a well-formed
    artifact, equal input rows give equal output rows, whatever the other
    rows of the two batches are. *)
Theorem forward_pass_rows_independent
    (d : list (string * pyval)) (n h1 h2 k : nat)
    (W1 b1 W2 b2 W3 b3 X X' : ndarray) (i i' : nat) :
  well_formed d n h1 h2 k W1 b1 W2 b2 W3 b3 -> k <> O ->
  ncols X = n -> ncols X' = n ->
  (i < nrows X)%nat -> (i' < nrows X')%nat -> row X i = row X' i' ->
  exists A A',
    _forward_pass (mkService (PyDict d)) X = inr A /\
    _forward_pass (mkService (PyDict d)) X' = inr A' /\
    row A i = row A' i'.
Proof.
  intros Hwf Hk HX HX' Hi Hi' Hrow.
  destruct (forward_pass_rows d n h1 h2 k W1 b1 W2 b2 W3 b3 X Hwf Hk HX)
    as [A [HA [_ [_ Hrows]]]].
  destruct (forward_pass_rows d n h1 h2 k W1 b1 W2 b2 W3 b3 X' Hwf Hk HX')
    as [A' [HA' [_ [_ Hrows']]]].
  exists A, A'. split; [exact HA|]. split; [exact HA'|].
  rewrite Hrows, Hrows' by assumption. rewrite Hrow. reflexivity.
Qed.

(** What follows from a normal return of preprocessing. *)
Lemma preprocess_returns_inv
    (self : MLPredictionService) (data : image_data) (X : ndarray) :
  _preprocess_image self data = inr X ->
  shape X = (1%nat, 1024%nat) /\
  exists d sc, model self = PyDict d /\ has_scaler d 1024 sc.
Proof.
  unfold _preprocess_image, PIL.convert_L, PIL.resize, PIL.np_array,
    subscript, scaler_transform, transform.
  destruct (match data with
            | Bytes b => Image_open b
            | Picture img => ret img
            | Unsupported _ =>
                raise (mkExn ValueError
                         "Invalid image data type. Expected bytes or PIL Image.")
            end) as [e|img]; py_step; [discriminate|].
  destruct (load img) as [e|px]; py_step; [discriminate|].
  cbn [load]. py_step. cbn [load]. py_step.
  destruct (model self) as [|d|]; py_step; [discriminate| |discriminate].
  destruct (dict_get d "scaler") as [[a|sc|]|] eqn:Esc; py_step;
    try discriminate.
  change (ncols (reshape_1_m1 (astype_float32 (flatten _)))) with 1024%nat.
  destruct (Nat.eqb_spec 1024 (n_features_in_ sc)) as [En|En]; py_step;
    [|discriminate].
  intros H. inversion H. split; [reflexivity|].
  exists d, sc. split; [reflexivity|]. split; [exact Esc | congruence].
Qed.

(** X6. Whatever the service state and the input are, an array that
    preprocessing returns has shape 1 by 1024, and then the artifact is a
    dictionary that holds a scaler fitted on 1024 dimensions. *)
Theorem preprocess_output_shape
    (self : MLPredictionService) (data : image_data) (X : ndarray) :
  _preprocess_image self data = inr X ->
  shape X = (1%nat, 1024%nat) /\
  exists d sc, model self = PyDict d /\ has_scaler d 1024 sc.
Proof.
  intros HX. destruct (preprocess_returns_inv self data X HX) as [Hshape Hsc].
  split; [exact Hshape | exact Hsc].
Qed.

(** X7. Every exception of preprocessing leaves it as an [Exception] whose
    message starts with "Image preprocessing failed: ", and
    [predict_brain_tumor] then reports "Prediction failed: Image
    preprocessing failed: ..."; for an unsupported input type the message is
    the one of the type check. *)
Theorem preprocess_errors_are_wrapped
    (self : MLPredictionService) (data : image_data) (e : exn) :
  _preprocess_image self data = inl e ->
  exists msg,
    e = mkExn Exception ("Image preprocessing failed: " ++ msg)%string /\
    (exists r, predict_brain_tumor self data = inr r /\ success r = false /\
       error r = Some ("Prediction failed: Image preprocessing failed: " ++ msg)%string) /\
    (forall t, data = Unsupported t ->
       msg = "Invalid image data type. Expected bytes or PIL Image."%string).
Proof.
  intros He.
  destruct (preprocess_raises_wrapped self data e He) as [e0 He0].
  exists (exn_str e0). split; [exact He0|]. split.
  - eexists. split; [unfold predict_brain_tumor; py_run; reflexivity|].
    split; [reflexivity|]. subst e. reflexivity.
  - intros t ->. unfold _preprocess_image in He. cbn in He.
    rewrite He0 in He. inversion He. reflexivity.
Qed.

(** X8. A service whose model is [None] never reaches the "Model not loaded"
    guard of the forward pass through [predict_brain_tumor]: preprocessing
    fails first, and the result is a failure whose message starts with
    "Prediction failed: Image preprocessing failed: "; for a decodable input
    the rest of the message is the [TypeError] of subscripting [None]. *)
Theorem unloaded_model_fails_in_preprocessing
    (self : MLPredictionService) (data : image_data) :
  model self = PyNone ->
  exists msg,
    predict_brain_tumor self data =
      inr (failed_prediction
             (mkExn Exception ("Image preprocessing failed: " ++ msg)%string)) /\
    (forall img px, decodes_to data img px ->
       msg = "'NoneType' object is not subscriptable"%string).
Proof.
  intros Hm.
  destruct (_preprocess_image self data) as [e|X] eqn:HX.
  - destruct (preprocess_raises_wrapped self data e HX) as [e0 He0].
    exists (exn_str e0). split.
    + unfold predict_brain_tumor. py_run. subst e. reflexivity.
    + intros img px [Hdec Hload].
      unfold _preprocess_image, PIL.convert_L, PIL.resize, PIL.np_array,
        subscript in HX.
      assert (Himg : match data with
                     | Bytes b => Image_open b
                     | Picture i => ret i
                     | Unsupported _ =>
                         raise (mkExn ValueError
                                  "Invalid image data type. Expected bytes or PIL Image.")
                     end = inr img).
      { destruct data as [b|i|t]; [exact Hdec | subst i; reflexivity | destruct Hdec]. }
      rewrite Himg in HX. cbn [bind ret catch Monad_either Exception_either] in HX.
      rewrite Hload in HX. cbn [bind ret catch Monad_either Exception_either load] in HX.
      rewrite Hm in HX. cbn in HX. rewrite He0 in HX. inversion HX. reflexivity.
  - exfalso. apply preprocess_returns_inv in HX.
    destruct HX as [_ [d [sc [Hd _]]]]. congruence.
Qed.

(** X9. Every successful prediction, on any artifact, reports a class index
    below 4 with one of the four labels, at least four probabilities that
    are all positive, at most 1 and sum to 1, a confidence that is positive,
    at most 1 and not below any reported probability, and no error. *)
Theorem successful_prediction_is_well_formed
    (self : MLPredictionService) (data : image_data) (r : PredictionResult) :
  predict_brain_tumor self data = inr r -> success r = true ->
  (exists i t, predicted_class r = Some i /\ (i < 4)%nat /\
               tumor_type r = Some t /\ In t Spec.labels) /\
  (4 <= List.length (probabilities r))%nat /\
  (forall p, In p (probabilities r) -> 0 < p <= 1 /\ p <= confidence r) /\
  Spec.vsum (probabilities r) = 1 /\
  0 < confidence r <= 1 /\
  error r = None.
Proof.
  intros Hr Hs.
  destruct (predict_cases self data) as
    [[e He] | [X [P [i [t [c [cp [p0 [HX [HP [Hi [Ht [Hc [Hcp [Hp0 Hr']]]]]]]]]]]]]]].
  { rewrite He in Hr. inversion Hr; subst r. discriminate. }
  rewrite Hr' in Hr. inversion Hr; subst r. clear Hr Hs.
  cbn [predicted_class probabilities tumor_type confidence error].
  apply argmax_inv in Hi. destruct Hi as [Hsz Hi].
  apply label_get_inv in Ht. destruct Ht as [Hi4 Ht].
  apply amax_inv in Hc. destruct Hc as [_ Hc].
  apply class_probabilities_inv in Hcp. destruct Hcp as [Hrow [Hcol _]].
  apply tolist_0_inv in Hp0. destruct Hp0 as [_ ->].
  destruct (forward_pass_inv self X P HP) as [Z3 HZ3].
  apply softmax_inv in HZ3. destruct HZ3 as [_ [_ [_ Hrows]]].
  destruct (softmax_row_facts P O _ (Hrows O Hrow)) as [Hpos [Hsum _]]; [lia|].
  change (rsum (item P O) (ncols P)) with (Spec.vsum (row P O)) in Hsum.
  assert (Hmember : forall p, In p (row P O) -> 0 < p <= 1).
  { intros p Hp. split.
    - apply (In_nth _ _ 0) in Hp. destruct Hp as [j [Hj <-]].
      rewrite row_length in Hj. rewrite nth_row by exact Hj. apply Hpos. exact Hj.
    - rewrite <- Hsum. apply vsum_ge_member; [|exact Hp].
      intros x Hx. apply (In_nth _ _ 0) in Hx. destruct Hx as [j [Hj <-]].
      rewrite row_length in Hj. rewrite nth_row by exact Hj. apply Hpos. exact Hj. }
  assert (Hconf : c = item P O i).
  { rewrite Hc, <- Hi. apply flat_row0. lia. }
  assert (Hcin : In c (row P O)).
  { rewrite Hconf, <- (nth_row P O i) by lia. apply nth_In.
    rewrite row_length. lia. }
  split; [exists i, t; repeat split; try assumption;
          eapply nth_error_In; exact Ht|].
  split; [rewrite row_length; exact Hcol|].
  split.
  - intros p Hp. split; [apply Hmember; exact Hp|].
    apply (In_nth _ _ 0) in Hp. destruct Hp as [j [Hj <-]].
    rewrite row_length in Hj. rewrite nth_row by exact Hj.
    rewrite <- flat_row0 by exact Hj. rewrite Hc.
    apply argmax_upto_max. unfold size. nia.
  - split; [exact Hsum|]. split; [apply Hmember; exact Hcin | reflexivity].
Qed.

(** A successful prediction names a label. *)
Lemma successful_prediction_has_label
    (self : MLPredictionService) (data : image_data) (r : PredictionResult) :
  predict_brain_tumor self data = inr r -> success r = true ->
  exists t, tumor_type r = Some t.
Proof.
  intros Hr Hs.
  destruct (predict_cases self data) as
    [[e He] | [X [P [i [t [c [cp [p0 [_ [_ [_ [_ [_ [_ [_ Hr']]]]]]]]]]]]]]].
  - rewrite He in Hr. inversion Hr; subst r. discriminate.
  - rewrite Hr' in Hr. inversion Hr; subst r. exists t. reflexivity.
Qed.

(** X10. The labels [get_model_info] lists are the ones a prediction can
    return: after any successful prediction the service reports the model as
    loaded, with 4 output classes, and the predicted label is among its
    [class_labels]. *)
Theorem predicted_label_is_listed
    (self : MLPredictionService) (data : image_data) (r : PredictionResult)
    (t : string) :
  predict_brain_tumor self data = inr r -> success r = true ->
  tumor_type r = Some t ->
  loaded (get_model_info self) = true /\
  output_classes (get_model_info self) = Some 4%nat /\
  class_labels (get_model_info self) = Spec.labels /\
  In t (class_labels (get_model_info self)).
Proof.
  intros Hr Hs Ht.
  destruct (predict_cases self data) as
    [[e He] | [X [P [i [t' [c [cp [p0 [HX [_ [_ [Hlab [_ [_ [_ Hr']]]]]]]]]]]]]]].
  { rewrite He in Hr. inversion Hr; subst r. discriminate. }
  rewrite Hr' in Hr. inversion Hr; subst r. clear Hr Hs.
  cbn [tumor_type] in Ht. inversion Ht; subst t'.
  apply preprocess_returns_inv in HX. destruct HX as [_ [d [sc [Hd _]]]].
  apply label_get_inv in Hlab. destruct Hlab as [_ Hnth].
  unfold get_model_info. rewrite Hd. cbn.
  repeat split. apply nth_error_In in Hnth. exact Hnth.
Qed.

(** X11. A scaler fitted on a number of dimensions other than 1024 makes
    preprocessing of every decodable input fail, and the prediction with
    it. *)
Theorem scaler_dimension_mismatch_fails
    (d : list (string * pyval)) (sc : StandardScaler) (n : nat)
    (data : image_data) (img : Image) (px : nat -> nat -> list nat) :
  has_scaler d n sc -> n <> 1024%nat -> decodes_to data img px ->
  exists msg,
    _preprocess_image (mkService (PyDict d)) data =
      inl (mkExn Exception ("Image preprocessing failed: " ++ msg)%string) /\
    predict_brain_tumor (mkService (PyDict d)) data =
      inr (failed_prediction
             (mkExn Exception ("Image preprocessing failed: " ++ msg)%string)).
Proof.
  intros [Hsc Hn] Hne Hdec.
  destruct (_preprocess_image (mkService (PyDict d)) data) as [e|X] eqn:HX.
  - destruct (preprocess_raises_wrapped _ _ e HX) as [e0 ->].
    exists (exn_str e0). split; [reflexivity|].
    unfold predict_brain_tumor. py_run. reflexivity.
  - exfalso. apply preprocess_returns_inv in HX.
    destruct HX as [_ [d' [sc' [Hd' [Hsc' Hn']]]]].
    cbn [model] in Hd'. inversion Hd'; subst d'.
    rewrite Hsc in Hsc'. inversion Hsc'; subst sc'. congruence.
Qed.

End ServiceExtras.

(** ** The prediction entry points of the controller *)

Section ControllerExtras.
Context {rt : Runtime}.
Import MLPredictionService.

Ltac easy_absurd := first [discriminate | congruence].

(** The service always hands a dictionary to the controller. *)
Lemma predict_returns (self : MLPredictionService) (data : image_data) :
  exists r, predict_brain_tumor self data = inr r /\
            (success r = false -> exists msg, error r = Some msg).
Proof.
  destruct (predict_cases self data) as
    [[e He] | [X [P [i [t [c [cp [p0 [_ [_ [_ [_ [_ [_ [_ Hr]]]]]]]]]]]]]]].
  - eexists. split; [exact He|]. intros _. eexists. reflexivity.
  - eexists. split; [exact Hr|]. discriminate.
Qed.

(** The repository update always returns. *)
Lemma update_returns {http : Http} (image_id : string) (r : PredictionResult) :
  exists u, ImageRepository.update_image_information image_id r = inr u.
Proof.
  unfold ImageRepository.update_image_information.
  destruct (requests_patch _ r) as [e|resp]; py_step; [eexists; reflexivity|].
  destruct (Nat.eqb (status_code resp) 200); py_step; [|eexists; reflexivity].
  destruct (response_json resp) as [e|[| | | |[|first l]|]]; py_step;
    eexists; reflexivity.
Qed.

(** The statuses of the two prediction entry points. *)
Lemma controller_predict_returns {http : Http}
    (ml_service : MLPredictionService) (data : image_data) :
  exists a status,
    ImageController.predict_brain_tumor ml_service data = inr (a, status) /\
    (status = 400 \/ status = 200 \/ status = 500).
Proof.
  unfold ImageController.predict_brain_tumor.
  destruct (ImageController.data_truthy data); cbn [negb]; py_step;
    [|eexists; eexists; split; [reflexivity | auto]].
  destruct (predict_returns ml_service data) as [r [Hr _]].
  py_run. destruct (success r); py_step;
    eexists; eexists; split; [reflexivity | auto | reflexivity | auto].
Qed.

Lemma predict_and_save_returns {http : Http}
    (ml_service : MLPredictionService) (data : image_data)
    (image_id : option string) :
  exists a status,
    ImageController.predict_and_save_brain_tumor ml_service data image_id
      = inr (a, status) /\
    (status = 400 \/ status = 200 \/ status = 500).
Proof.
  unfold ImageController.predict_and_save_brain_tumor.
  destruct (ImageController.data_truthy data); cbn [negb]; py_step;
    [|eexists; eexists; split; [reflexivity | auto]].
  destruct (ImageController.id_truthy image_id); cbn [negb]; py_step;
    [|eexists; eexists; split; [reflexivity | auto]].
  destruct (predict_returns ml_service data) as [r [Hr _]].
  py_run. destruct (success r); py_step;
    [|eexists; eexists; split; [reflexivity | auto]].
  destruct (update_returns
              (match image_id with Some s => s | None => "" end)%string r)
    as [u Hu].
  rewrite Hu. py_step.
  destruct (truthy u); py_step;
    eexists; eexists; split; [reflexivity | auto | reflexivity | auto].
Qed.

(** X12. On image data that is bytes or a PIL picture,
    [ImageController.predict_brain_tumor] does not raise and answers with
    status 400, 200 or 500: 400 exactly when the data is false (empty
    bytes); otherwise 200 with the whole result of the service under [data]
    when the prediction succeeded, and 500 with the service's error message
    when it did not. (The truth test [not image_data] stands before the
    [try]: on another object, such as a numpy array, that test itself can
    raise, which this statement leaves out.) *)
Theorem controller_predict_outcomes {http : Http}
    (ml_service : MLPredictionService) (data : image_data) :
  (exists b, data = Bytes b) \/ (exists img, data = Picture img) ->
  exists a status,
    ImageController.predict_brain_tumor ml_service data = inr (a, status) /\
    (ImageController.data_truthy data = false ->
       status = 400 /\ a = ImageController.failure "Image data is required") /\
    (ImageController.data_truthy data = true ->
       exists r, predict_brain_tumor ml_service data = inr r /\
         (success r = true ->
            status = 200 /\ ImageController.a_success a = true /\
            ImageController.a_data a = Some r) /\
         (success r = false ->
            status = 500 /\ ImageController.a_success a = false /\
            ImageController.a_error a = error r)) /\
    (ImageController.a_success a = true <-> status = 200).
Proof.
  intros _. unfold ImageController.predict_brain_tumor.
  destruct (ImageController.data_truthy data) eqn:Hd; cbn [negb].
  - destruct (predict_returns ml_service data) as [r [Hr Herr]].
    py_run. destruct (success r) eqn:Hs; py_step.
    + eexists. eexists. split; [reflexivity|].
      split; [easy_absurd|]. split.
      * intros _. exists r. split; [reflexivity|]. split; [auto|easy_absurd].
      * cbn. split; auto.
    + destruct (Herr eq_refl) as [msg Hmsg].
      eexists. eexists. split; [reflexivity|].
      split; [easy_absurd|]. split.
      * intros _. exists r. split; [reflexivity|]. split; [easy_absurd|].
        intros _. cbn. unfold ImageController.error_of. rewrite Hmsg. auto.
      * cbn. split; easy_absurd.
  - py_step. eexists. eexists. split; [reflexivity|].
    split; [auto|]. split; [easy_absurd|]. cbn. split; easy_absurd.
Qed.

(** X13. On image data that is bytes or a PIL picture and an image id that
    is a string or [None], [predict_and_save_brain_tumor] does not raise and
    answers with status 400, 200 or 500: 400 exactly when the data or the id
    is false, the data being tested first; 200, with [success = true] and
    the prediction under [data], exactly when both are given and the
    prediction succeeded; 500 with [success = false] otherwise. (The two
    truth tests stand before the [try]: on another object, such as a numpy
    array, the test itself can raise, which this statement leaves out.) *)
Theorem predict_and_save_outcomes {http : Http}
    (ml_service : MLPredictionService) (data : image_data)
    (image_id : option string) :
  (exists b, data = Bytes b) \/ (exists img, data = Picture img) ->
  exists a status,
    ImageController.predict_and_save_brain_tumor ml_service data image_id
      = inr (a, status) /\
    (ImageController.data_truthy data = false ->
       status = 400 /\ a = ImageController.failure "Image data is required") /\
    (ImageController.data_truthy data = true ->
     ImageController.id_truthy image_id = false ->
       status = 400 /\ a = ImageController.failure "Image ID is required") /\
    (ImageController.data_truthy data = true ->
     ImageController.id_truthy image_id = true ->
       exists r, predict_brain_tumor ml_service data = inr r /\
         (success r = true ->
            status = 200 /\ ImageController.a_success a = true /\
            ImageController.a_data a = Some r) /\
         (success r = false ->
            status = 500 /\ ImageController.a_success a = false /\
            ImageController.a_error a = error r)) /\
    (ImageController.a_success a = true <-> status = 200).
Proof.
  intros _. unfold ImageController.predict_and_save_brain_tumor.
  destruct (ImageController.data_truthy data) eqn:Hd; cbn [negb].
  2:{ py_step. eexists. eexists. split; [reflexivity|].
      split; [auto|]. split; [easy_absurd|]. split; [easy_absurd|].
      cbn. split; easy_absurd. }
  destruct (ImageController.id_truthy image_id) eqn:Hid; cbn [negb].
  2:{ py_step. eexists. eexists. split; [reflexivity|].
      split; [easy_absurd|]. split; [auto|]. split; [easy_absurd|].
      cbn. split; easy_absurd. }
  destruct (predict_returns ml_service data) as [r [Hr Herr]].
  py_run. destruct (success r) eqn:Hs; py_step.
  - destruct (update_returns
                (match image_id with Some s => s | None => "" end)%string r)
      as [u Hu].
    rewrite Hu. py_step.
    destruct (truthy u); py_step;
      (eexists; eexists; split; [reflexivity|];
       split; [easy_absurd|]; split; [easy_absurd|]; split;
       [intros _ _; exists r; split; [reflexivity|]; split; [auto|easy_absurd]
       | cbn; split; auto]).
  - destruct (Herr eq_refl) as [msg Hmsg].
    eexists. eexists. split; [reflexivity|].
    split; [easy_absurd|]. split; [easy_absurd|]. split.
    + intros _ _. exists r. split; [reflexivity|]. split; [easy_absurd|].
      intros _. cbn. unfold ImageController.error_of. rewrite Hmsg. auto.
    + cbn. split; easy_absurd.
Qed.


(** X15. [update_image_information] never raises. It returns [None] when
    the request raises, when the status is not 200 and when the body cannot
    be parsed; on status 200 it returns the first element of a non-empty
    list and otherwise the parsed body itself (an empty list included). *)
Theorem update_image_information_total {http : Http}
    (image_id : string) (r : PredictionResult) :
  exists u,
    ImageRepository.update_image_information image_id r = inr u /\
    (forall e, requests_patch (base_url ++ "/images?id=eq." ++ image_id)%string r
               = inl e -> u = JNull) /\
    (forall resp, requests_patch (base_url ++ "/images?id=eq." ++ image_id)%string r
                  = inr resp ->
       (status_code resp <> 200 -> u = JNull) /\
       (status_code resp = 200 ->
          (forall e, response_json resp = inl e -> u = JNull) /\
          (forall first rest, response_json resp = inr (JList (first :: rest)) ->
                              u = first) /\
          (forall v, response_json resp = inr v ->
                     (forall first rest, v <> JList (first :: rest)) -> u = v))).
Proof.
  unfold ImageRepository.update_image_information.
  destruct (requests_patch _ r) as [e|resp]; py_step.
  { eexists. split; [reflexivity|]. split; [reflexivity | discriminate]. }
  destruct (Nat.eqb_spec (status_code resp) 200) as [E|E]; py_step.
  2:{ eexists. split; [reflexivity|]. split; [discriminate|].
      intros resp' H. inversion H; subst resp'. split; [reflexivity|contradiction]. }
  destruct (response_json resp) as [e|v] eqn:Ej; py_step.
  { eexists. split; [reflexivity|]. split; [discriminate|].
    intros resp' H. inversion H; subst resp'. split; [contradiction|].
    intros _. rewrite Ej. repeat split; intros; try discriminate; reflexivity. }
  assert (Hcases : (exists first rest, v = JList (first :: rest)) \/
                   (forall first rest, v <> JList (first :: rest))).
  { destruct v as [| | | |[|first rest]|]; try (right; discriminate).
    left. eauto. }
  destruct Hcases as [[first [rest ->]]|Hnot].
  - py_step. exists first. split; [reflexivity|]. split; [discriminate|].
    intros resp' H. inversion H; subst resp'. split; [contradiction|].
    intros _. rewrite Ej. repeat split; intros.
    + discriminate.
    + congruence.
    + exfalso. inversion H0; subst v. eapply H1. reflexivity.
  - exists v. split.
    + destruct v as [| | | |[|first rest]|]; try reflexivity.
      exfalso. eapply Hnot. reflexivity.
    + split; [discriminate|].
      intros resp' H. inversion H; subst resp'. split; [contradiction|].
      intros _. rewrite Ej. repeat split; intros.
      * discriminate.
      * exfalso. inversion H0. eapply Hnot. eassumption.
      * congruence.
Qed.

(** X16. An update that the backend answers with status 200 and an empty
    list (no record matched the id) is reported like a failed save: status
    200, [success = true], the prediction under [data] and the warning. *)
Theorem unmatched_update_gives_warning {http : Http}
    (ml_service : MLPredictionService) (data : image_data) (image_id : string)
    (r : PredictionResult) (resp : Response) :
  ImageController.data_truthy data = true ->
  ImageController.id_truthy (Some image_id) = true ->
  predict_brain_tumor ml_service data = inr r -> success r = true ->
  requests_patch (base_url ++ "/images?id=eq." ++ image_id)%string r = inr resp ->
  status_code resp = 200 -> response_json resp = inr (JList []) ->
  ImageController.predict_and_save_brain_tumor ml_service data (Some image_id) =
  inr (ImageController.mkAnswer
         (Some "Brain tumor prediction completed but failed to save to database"%string)
         None true (Some r) None
         (Some "Prediction results could not be saved to database"%string),
       200).
Proof.
  intros Hd Hid Hr Hs Hpatch Hstatus Hjson.
  unfold ImageController.predict_and_save_brain_tumor,
    ImageRepository.update_image_information.
  rewrite Hd, Hid. cbn [negb]. py_run. rewrite Hs. py_run.
  rewrite Hstatus. cbn [Nat.eqb]. py_run. reflexivity.
Qed.

End ControllerExtras.

(** ** The catalog: repository and controller *)

Section CatalogExtras.
Context {http : Http} {rest : Rest} {bi : Builtins}.

Lemma create_image_returns (name url : string) :
  exists v, ImageRepository.create_image name url = inr v.
Proof.
  unfold ImageRepository.create_image.
  destruct (requests_post _ _) as [e|resp]; py_step; [eexists; reflexivity|].
  destruct (Nat.eqb (status_code resp) 201); py_step; [|eexists; reflexivity].
  destruct (response_json resp) as [e|[| | | |[|first l]|]]; py_step;
    eexists; reflexivity.
Qed.

Lemma get_image_by_id_returns (image_id : string) :
  exists v, ImageRepository.get_image_by_id image_id = inr v.
Proof.
  unfold ImageRepository.get_image_by_id.
  destruct (requests_get _) as [e|resp]; py_step; [eexists; reflexivity|].
  destruct (Nat.eqb (status_code resp) 200); py_step; [|eexists; reflexivity].
  destruct (response_json resp) as [e|v]; py_step; [eexists; reflexivity|].
  destruct (truthy v); [|eexists; reflexivity].
  destruct (json_first first_char v); py_step; eexists; reflexivity.
Qed.

Lemma get_all_images_returns :
  exists v, ImageRepository.get_all_images = inr v.
Proof.
  unfold ImageRepository.get_all_images.
  destruct (requests_get _) as [e|resp]; py_step; [eexists; reflexivity|].
  destruct (Nat.eqb (status_code resp) 200); py_step; [|eexists; reflexivity].
  destruct (response_json resp) as [e|v]; py_step; eexists; reflexivity.
Qed.

(** X17. The three catalog operations of the repository never raise. A
    request that raises, an unexpected status (not 201 for the creation, not
    200 for the reads) or a body that cannot be parsed gives [None], and the
    empty list for [get_all_images]. *)
Theorem repository_failures_are_values (name url image_id : string) :
  (exists v, ImageRepository.create_image name url = inr v /\
     (((exists e, requests_post (base_url ++ "/images")%string
                            (JObj [("name", JStr name); ("url", JStr url)]%string)
                          = inl e) \/
               (exists resp,
                   requests_post (base_url ++ "/images")%string
                     (JObj [("name", JStr name); ("url", JStr url)]%string)
                   = inr resp /\
                   (status_code resp <> 201 \/ exists e, response_json resp = inl e))) ->
      v = JNull)) /\
  (exists v, ImageRepository.get_all_images = inr v /\
     (((exists e, requests_get
                            (base_url ++ "/images?select=*&order=uploaded_at.desc")%string
                          = inl e) \/
               (exists resp,
                   requests_get
                     (base_url ++ "/images?select=*&order=uploaded_at.desc")%string
                   = inr resp /\
                   (status_code resp <> 200 \/ exists e, response_json resp = inl e))) ->
      v = JList [])) /\
  (exists v, ImageRepository.get_image_by_id image_id = inr v /\
     (((exists e, requests_get
                            (base_url ++ "/images?select=*&id=eq." ++ image_id)%string
                          = inl e) \/
               (exists resp,
                   requests_get
                     (base_url ++ "/images?select=*&id=eq." ++ image_id)%string
                   = inr resp /\
                   (status_code resp <> 200 \/ exists e, response_json resp = inl e))) ->
      v = JNull)).
Proof.
  split; [|split].
  - unfold ImageRepository.create_image.
    destruct (requests_post _ _) as [e|resp]; py_step;
      [eexists; split; reflexivity|].
    destruct (Nat.eqb_spec (status_code resp) 201) as [E|E]; py_step;
      [|eexists; split; reflexivity].
    destruct (response_json resp) as [e|v] eqn:Ej; py_step;
      [eexists; split; reflexivity|].
    destruct v as [| | | |[|first l]|]; py_step;
      (eexists; split; [reflexivity|];
       intros [[e He]|[resp' [Hresp [Hst|[e He]]]]];
       [discriminate | inversion Hresp; subst; contradiction
       | inversion Hresp; subst; congruence]).
  - unfold ImageRepository.get_all_images.
    destruct (requests_get _) as [e|resp]; py_step;
      [eexists; split; reflexivity|].
    destruct (Nat.eqb_spec (status_code resp) 200) as [E|E]; py_step;
      [|eexists; split; reflexivity].
    destruct (response_json resp) as [e|v] eqn:Ej; py_step;
      [eexists; split; reflexivity|].
    exists v. split; [reflexivity|].
    intros [[e He]|[resp' [Hresp [Hst|[e He]]]]];
      [discriminate | inversion Hresp; subst; contradiction
      | inversion Hresp; subst; congruence].
  - unfold ImageRepository.get_image_by_id.
    destruct (requests_get _) as [e|resp]; py_step;
      [eexists; split; reflexivity|].
    destruct (Nat.eqb_spec (status_code resp) 200) as [E|E]; py_step;
      [|eexists; split; reflexivity].
    destruct (response_json resp) as [e|v] eqn:Ej; py_step;
      [eexists; split; reflexivity|].
    destruct (truthy v);
      [destruct (json_first first_char v); py_step|];
      (eexists; split; [reflexivity|];
       intros [[e' He]|[resp' [Hresp [Hst|[e' He]]]]];
       [discriminate | inversion Hresp; subst; contradiction
       | inversion Hresp; subst; congruence]).
Qed.

(** X18. [ImageController.get_image_by_id] never raises and answers with
    status 400, 200 or 404, never 500: 400 exactly when the id is false;
    with an id, 200 with [success = true] and the repository's record under
    [data] exactly when the repository returned a true value, and 404 "Image
    not found" when it returned a false one, so a request that raised is
    reported as not found. *)
Theorem get_image_by_id_outcomes (image_id : option string) :
  exists a status,
    ImageController.get_image_by_id image_id = inr (a, status) /\
    (ImageController.id_truthy image_id = false ->
       status = 400 /\ a = ImageController.catalog_failure "Image ID is required") /\
    (forall id,
       image_id = Some id -> ImageController.id_truthy image_id = true ->
       exists v,
         ImageRepository.get_image_by_id id = inr v /\
         (truthy v = true ->
            status = 200 /\
            a = ImageController.mkCatalogAnswer
                  (Some "Image retrieved successfully"%string) None true
                  (Some v) None) /\
         (truthy v = false ->
            status = 404 /\ a = ImageController.catalog_failure "Image not found")) /\
    (status = 200 <-> ImageController.c_success a = true) /\
    (forall id e,
       image_id = Some id -> ImageController.id_truthy image_id = true ->
       requests_get (base_url ++ "/images?select=*&id=eq." ++ id)%string = inl e ->
       status = 404 /\ a = ImageController.catalog_failure "Image not found").
Proof.
  unfold ImageController.get_image_by_id.
  destruct (ImageController.id_truthy image_id) eqn:Hid; cbn [negb]; py_step.
  2:{ eexists. eexists. split; [reflexivity|]. split; [auto|].
      split; [intros; discriminate|]. split; [cbn; split; discriminate|].
      intros; discriminate. }
  destruct (get_image_by_id_returns
              (match image_id with Some s => s | None => "" end)%string)
    as [v Hv].
  rewrite Hv. py_step.
  destruct (truthy v) eqn:Htv; py_step.
  - eexists. eexists. split; [reflexivity|]. split; [discriminate|].
    split.
    { intros id -> _. exists v. split; [exact Hv|].
      split; [auto | congruence]. }
    split; [cbn; split; auto|].
    intros id e -> _ Hget. exfalso.
    unfold ImageRepository.get_image_by_id in Hv. rewrite Hget in Hv.
    cbn in Hv. inversion Hv; subst v. discriminate.
  - eexists. eexists. split; [reflexivity|]. split; [discriminate|].
    split.
    { intros id -> _. exists v. split; [exact Hv|].
      split; [congruence | auto]. }
    split; [cbn; split; discriminate|].
    intros. split; reflexivity.
Qed.

(** X19. [ImageController.get_all_images] cannot tell a failing backend from
    an empty catalog: when the request raises or is answered with a status
    other than 200, the answer is status 200 with [success = true], the
    empty list and the count 0. *)
Theorem get_all_images_masks_failures :
  (exists e, requests_get
               (base_url ++ "/images?select=*&order=uploaded_at.desc")%string = inl e) \/
  (exists resp, requests_get
                  (base_url ++ "/images?select=*&order=uploaded_at.desc")%string
                = inr resp /\ status_code resp <> 200) ->
  ImageController.get_all_images =
  inr (ImageController.mkCatalogAnswer (Some "Images retrieved successfully"%string)
         None true (Some (JList [])) (Some 0), 200).
Proof.
  unfold ImageController.get_all_images, ImageRepository.get_all_images.
  intros [[e He]|[resp [Hresp Hst]]].
  - rewrite He. reflexivity.
  - rewrite Hresp. py_step.
    destruct (Nat.eqb_spec (status_code resp) 200); [contradiction|]. reflexivity.
Qed.

(** X20. When the backend answers the listing with status 200, the count of
    [get_all_images] is the length of the list it sent; a body that is
    [null], a number or a boolean makes [len] raise a [TypeError], which
    leaves the controller function. *)
Theorem get_all_images_counts (resp : Response) (v : json) :
  requests_get (base_url ++ "/images?select=*&order=uploaded_at.desc")%string
    = inr resp ->
  status_code resp = 200 -> response_json resp = inr v ->
  (forall l, v = JList l ->
     ImageController.get_all_images =
     inr (ImageController.mkCatalogAnswer (Some "Images retrieved successfully"%string)
            None true (Some (JList l)) (Some (List.length l)), 200)) /\
  (v = JNull \/ (exists b, v = JBool b) \/ (exists z, v = JNum z) ->
     exists e, ImageController.get_all_images = inl e /\ exn_cls e = TypeError).
Proof.
  intros Hresp Hst Hv.
  unfold ImageController.get_all_images, ImageRepository.get_all_images.
  rewrite Hresp. py_step. rewrite Hst. cbn [Nat.eqb]. rewrite Hv. py_step.
  split.
  - intros l ->. reflexivity.
  - intros [->|[[b ->]|[z ->]]]; eexists; split; reflexivity.
Qed.

(** X21. [ImageController.create_image] answers 400, whatever the backend
    is, when the body is false (absent, empty), and when the name and the
    url are both strings (or absent) and the name, once stripped, is empty:
    the validation comes before the request. The url is stripped before the
    name is tested, so with a url that is not a string ([null] included) the
    function raises an [AttributeError] instead, even when the name is
    empty. *)
Theorem create_image_validation (data : json) :
  (truthy data = false ->
     ImageController.create_image data =
     inr (ImageController.catalog_failure "Request body is required", 400)) /\
  (forall name url,
     truthy data = true ->
     json_get data "name" = inr (JStr name) ->
     json_get data "url" = inr (JStr url) ->
     str_strip name = ""%string ->
     ImageController.create_image data =
     inr (ImageController.catalog_failure "Image name is required", 400)) /\
  (forall name v,
     truthy data = true ->
     json_get data "name" = inr (JStr name) ->
     json_get data "url" = inr v -> (forall url, v <> JStr url) ->
     exists e, ImageController.create_image data = inl e /\
               exn_cls e = AttributeError).
Proof.
  unfold ImageController.create_image. split; [|split].
  - intros ->. reflexivity.
  - intros name url -> Hname Hurl Hstrip. cbn [negb].
    rewrite Hname. py_step. cbn [json_strip]. py_step.
    rewrite Hurl. py_step. rewrite Hstrip. reflexivity.
  - intros name v -> Hname Hurl Hnot. cbn [negb].
    rewrite Hname. py_step. cbn [json_strip]. py_step.
    rewrite Hurl. py_step.
    destruct v as [| | |url| |]; try (eexists; split; reflexivity).
    exfalso. eapply Hnot. reflexivity.
Qed.

(** X22. [ImageController.create_image] has no handler: on a true body that
    is not a dictionary, or whose name is not a string ([null] included),
    it raises an [AttributeError]. *)
Theorem create_image_raises_on_bad_fields (data : json) :
  truthy data = true ->
  (forall o, data <> JObj o) \/
  (exists o v, data = JObj o /\ dict_get o "name" = Some v /\
               forall s, v <> JStr s) ->
  exists e, ImageController.create_image data = inl e /\
            exn_cls e = AttributeError.
Proof.
  intros Ht Hbad. unfold ImageController.create_image. rewrite Ht. cbn [negb].
  destruct Hbad as [Hnot|[o [v [-> [Hv Hstr]]]]].
  - destruct data as [| | | | |o]; try (eexists; split; reflexivity).
    exfalso. eapply Hnot. reflexivity.
  - cbn [json_get]. rewrite Hv. py_step.
    destruct v as [| | |s| |]; try (eexists; split; reflexivity).
    exfalso. eapply Hstr. reflexivity.
Qed.

(** X23. What [create_image] sends and returns: the record posted to the
    backend holds the stripped name and the stripped URL, or the placeholder
    URL when that one is empty; when the backend answers 201 with a list,
    the answer is 201 with its first record under [data] if that record is
    a true value, and 500 if it is not. *)
Theorem create_image_round_trip
    (o : list (string * json)) (name url : string) (resp : Response)
    (record : json) (others : list json) :
  o <> [] ->
  dict_get o "name" = Some (JStr name) -> dict_get o "url" = Some (JStr url) ->
  str_strip name <> ""%string ->
  requests_post (base_url ++ "/images")%string
    (JObj [("name", JStr (str_strip name));
           ("url", JStr (if String.eqb (str_strip url) ""
                         then ImageController.placeholder_url
                         else str_strip url))]%string) = inr resp ->
  status_code resp = 201 ->
  response_json resp = inr (JList (record :: others)) ->
  ImageController.create_image (JObj o) =
  inr (if truthy record
       then (ImageController.mkCatalogAnswer (Some "Image created successfully"%string)
               None true (Some record) None, 201)
       else (ImageController.catalog_failure
               "Failed to create image. Please try again.", 500)).
Proof.
  intros Ho Hname Hurl Hstrip Hpost Hst Hjson.
  unfold ImageController.create_image, ImageRepository.create_image.
  assert (Ht : truthy (JObj o) = true) by (destruct o; [congruence | reflexivity]).
  rewrite Ht. cbn [negb json_get]. rewrite Hname, Hurl. py_step.
  cbn [json_strip]. py_step.
  destruct (String.eqb_spec (str_strip name) "") as [E|_]; [contradiction|].
  rewrite Hpost. py_step. rewrite Hst. cbn [Nat.eqb]. rewrite Hjson. py_step.
  destruct (truthy record); reflexivity.
Qed.

End CatalogExtras.

(** ** The upload controller *)

Section UploadExtras.
Context {http : Http} {rest : Rest} {bi : Builtins} {st : Storage}.
Import UploadController.

Lemma model_create_image_returns (name url : string) :
  exists v, ImageModel.create_image name url = inr v.
Proof.
  unfold ImageModel.create_image.
  destruct (requests_post _ _) as [e|resp]; py_step; [eexists; reflexivity|].
  destruct (Nat.eqb (status_code resp) 201); py_step; [|eexists; reflexivity].
  destruct (response_json resp) as [e|[| | | |[|first l]|]]; py_step;
    eexists; reflexivity.
Qed.

(** X24. What follows the last dot: [after_last_dot] finds an extension
    exactly when the name holds a dot; the extension itself holds no dot and
    the name is some stem, a dot and the extension. *)
Theorem after_last_dot_spec (name : string) :
  (forall ext, after_last_dot name = Some ext ->
     ~ In "."%char (list_ascii_of_string ext) /\
     exists stem, name = (stem ++ "." ++ ext)%string) /\
  (after_last_dot name = None <-> ~ In "."%char (list_ascii_of_string name)).
Proof.
  induction name as [|c tl [IHsome IHnone]].
  - split; [discriminate|]. cbn. split; auto.
  - cbn [after_last_dot list_ascii_of_string].
    destruct (after_last_dot tl) as [ext'|] eqn:E.
    + split.
      * intros ext H. inversion H; subst ext'.
        destruct (IHsome ext eq_refl) as [Hno [stem ->]].
        split; [exact Hno|]. exists (String c stem). reflexivity.
      * split; [discriminate|]. intros Hno. exfalso.
        destruct (IHsome ext' eq_refl) as [_ [stem Hstem]].
        apply Hno. right. rewrite Hstem.
        clear. induction stem as [|a stem IH]; cbn; auto.
    + assert (Htl : ~ In "."%char (list_ascii_of_string tl))
        by (apply IHnone; reflexivity).
      destruct (Ascii.eqb_spec c "."%char) as [->|Hc].
      * split.
        -- intros ext H. inversion H; subst ext.
           split; [exact Htl|]. exists ""%string. reflexivity.
        -- split; [discriminate|]. intros Hno. exfalso. apply Hno. left. reflexivity.
      * split; [discriminate|]. split; [|reflexivity].
        intros _ [Heq|Hin]; [congruence | contradiction].
Qed.


(** X26. [upload_image] never raises and answers with status 400, 201 or
    500; [success] is true exactly with status 201, and then the answer
    carries the created record, which is a true value. *)
Theorem upload_image_outcomes (file : option FileStorage) (name : option string) :
  exists a status,
    upload_image file name = inr (a, status) /\
    (status = 400 \/ status = 201 \/ status = 500) /\
    (u_success a = true <-> status = 201) /\
    (status = 201 -> exists record, u_data a = Some record /\ truthy record = true).
Proof.
  unfold upload_image.
  destruct file as [f|]; py_step.
  2:{ eexists. eexists. split; [reflexivity|]. split; [auto|].
      split; [cbn; split; discriminate | discriminate]. }
  destruct (String.eqb (filename f) ""); py_step.
  { eexists. eexists. split; [reflexivity|]. split; [auto|].
    split; [cbn; split; discriminate | discriminate]. }
  destruct (is_allowed (file_extension (filename f))); cbn [negb]; py_step.
  2:{ eexists. eexists. split; [reflexivity|]. split; [auto|].
      split; [cbn; split; discriminate | discriminate]. }
  destruct (requests_post_data _ _ _) as [e|sresp]; py_step.
  { eexists. eexists. split; [reflexivity|]. split; [auto|].
    split; [cbn; split; discriminate | discriminate]. }
  destruct (negb _); py_step.
  { eexists. eexists. split; [reflexivity|]. split; [auto|].
    split; [cbn; split; discriminate | discriminate]. }
  match goal with
  | |- context [ImageModel.create_image ?n ?u] =>
      destruct (model_create_image_returns n u) as [v Hv]; rewrite Hv
  end.
  py_step. destruct (truthy v) eqn:Hv'; py_step.
  - eexists. eexists. split; [reflexivity|]. split; [auto|].
    split; [cbn; split; auto|]. intros _. exists v. auto.
  - destruct (requests_delete _); py_step;
      (eexists; eexists; split; [reflexivity|]; split; [auto|];
       split; [cbn; split; discriminate | discriminate]).
Qed.


(** X28. After a stored file, the database record is created under the
    custom name when one is given and under the secured file name
    otherwise, with the public URL of the stored object. When that creation
    gives a true value the answer is 201 with it; when it does not, the
    answer is 500 whatever the clean-up request does, an exception of it
    included. *)
Theorem upload_record_and_cleanup
    (f : FileStorage) (name : option string) (sresp : StorageResponse)
    (created : json) :
  filename f <> ""%string ->
  is_allowed (file_extension (filename f)) = true ->
  let secure_name := secure_filename (filename f) in
  let unique := (uuid4_hex ++ "-" ++ secure_name)%string in
  requests_post_data (object_url unique)
    (match content_type f with
     | Some t => if String.eqb t "" then "application/octet-stream" else t
     | None => "application/octet-stream"
     end)%string (stream f) = inr sresp ->
  storage_status sresp = 200 \/ storage_status sresp = 201 ->
  ImageModel.create_image
    (match name with
     | Some n => if String.eqb n "" then secure_name else n
     | None => secure_name
     end) (public_object_url unique) = inr created ->
  upload_image (Some f) name =
  inr (if truthy created
       then (mkUploadAnswer (Some "Image uploaded and created successfully"%string)
               None true (Some created), 201)
       else (upload_failure "Failed to create image record in database", 500)).
Proof.
  intros Hname Hallowed secure_name unique Hpost Hst Hcreate.
  unfold upload_image.
  destruct (String.eqb_spec (filename f) "") as [E|_]; [contradiction|].
  rewrite Hallowed. cbn [negb]. subst secure_name unique.
  rewrite Hpost. py_step.
  assert (Hok : negb (Nat.eqb (storage_status sresp) 200
                      || Nat.eqb (storage_status sresp) 201) = false).
  { destruct Hst as [->| ->]; reflexivity. }
  rewrite Hok. rewrite Hcreate. py_step.
  destruct (truthy created); py_step; [reflexivity|].
  destruct (requests_delete _); reflexivity.
Qed.

End UploadExtras.

(** ** The prediction handler of the views *)

Section ViewExtras.
Context {rt : Runtime}.
Import MLPredictionService.

(** X29. [_handle_predict_brain_tumor] never raises and answers 400, 200 or
    500. Without a ["file"] part, or with one whose name is empty, it
    answers 400 and runs no prediction; when the form has no [image_id], or
    an empty one, it answers what [ImageController.predict_brain_tumor]
    answers on the bytes of the file, whatever the HTTP backend is; with an
    [image_id] it answers what [predict_and_save_brain_tumor] answers. *)
Theorem handle_predict_outcomes {http : Http}
    (ml_service : MLPredictionService) (request : Request) :
  exists a status,
    Views._handle_predict_brain_tumor ml_service request = inr (a, status) /\
    (status = 400 \/ status = 200 \/ status = 500) /\
    (dict_get (files request) "file" = None ->
       (a, status) = (ImageController.failure "No file provided", 400)) /\
    (forall file, dict_get (files request) "file" = Some file ->
       (filename file = ""%string ->
          (a, status) = (ImageController.failure "No file selected", 400)) /\
       (filename file <> ""%string ->
          (ImageController.id_truthy (dict_get (form request) "image_id") = false ->
             ImageController.predict_brain_tumor ml_service (Bytes (stream file))
             = inr (a, status)) /\
          (ImageController.id_truthy (dict_get (form request) "image_id") = true ->
             ImageController.predict_and_save_brain_tumor ml_service
               (Bytes (stream file)) (dict_get (form request) "image_id")
             = inr (a, status)))).
Proof.
  unfold Views._handle_predict_brain_tumor.
  destruct (dict_get (files request) "file") as [file|].
  2:{ eexists. eexists. split; [reflexivity|]. split; [auto|].
      split; [reflexivity | discriminate]. }
  destruct (String.eqb_spec (filename file) "") as [E|E].
  { eexists. eexists. split; [reflexivity|]. split; [auto|].
    split; [discriminate|]. intros file' H. inversion H; subst file'.
    split; [reflexivity | contradiction]. }
  destruct (ImageController.id_truthy (dict_get (form request) "image_id")) eqn:Hid.
  - destruct (predict_and_save_returns ml_service (Bytes (stream file))
                (dict_get (form request) "image_id"))
      as [a [status [Hres Hstatus]]].
    exists a, status. rewrite Hres. split; [reflexivity|].
    split; [exact Hstatus|].
    split; [discriminate|]. intros file' H. inversion H; subst file'.
    split; [contradiction|]. intros _. split; [discriminate | intros _; exact Hres].
  - destruct (controller_predict_returns ml_service (Bytes (stream file)))
      as [a [status [Hres Hstatus]]].
    exists a, status. rewrite Hres. split; [reflexivity|].
    split; [exact Hstatus|].
    split; [discriminate|]. intros file' H. inversion H; subst file'.
    split; [contradiction|]. intros _. split; [intros _; exact Hres | discriminate].
Qed.

End ViewExtras.

(** ** The further properties on concrete inputs *)

Section ExtraWitnesses.
Import MLPredictionService.

Lemma softmax_is_plain_softmax_witness :
  ncols (Fixture.zeros 1 4) <> O /\
  exists A, _softmax (Fixture.zeros 1 4) = inr A /\ shape A = (1, 4).
Proof.
  assert (Hc : ncols (Fixture.zeros 1 4) <> O) by discriminate.
  split; [exact Hc|].
  destruct (softmax_is_plain_softmax (Fixture.zeros 1 4) Hc) as [A [HA [Hs _]]].
  exists A. split; [exact HA | exact Hs].
Defined.

Lemma softmax_keeps_order_witness :
  exists A, _softmax (Fixture.zeros 1 4) = inr A /\
            (0 <= item A 0 1 <= 1)%R.
Proof.
  eexists. split; [reflexivity|].
  refine (proj2 (proj2 (softmax_keeps_order (Fixture.zeros 1 4) _ 0 1 2
                          eq_refl _ _ _))); cbn; lia.
Defined.

Lemma forward_pass_missing_parameter_witness :
  exists missing,
    dict_get Fixture2.artifact_small_scaler missing = None /\
    _forward_pass (mkService (PyDict Fixture2.artifact_small_scaler))
      (Fixture.zeros 1 1024) = inl (mkExn KeyError (repr_str missing)).
Proof.
  destruct (@forward_pass_missing_parameter
              (mkService (PyDict Fixture2.artifact_small_scaler))
              Fixture2.artifact_small_scaler (Fixture.zeros 1 1024) "b3"%string
              eq_refl) as [missing [_ [Hnone Hraise]]].
  - cbn. auto 10.
  - reflexivity.
  - exists missing. split; assumption.
Defined.

Lemma forward_pass_rows_independent_witness :
  exists A A',
    _forward_pass Fixture.service (Fixture.zeros 1 1024) = inr A /\
    _forward_pass Fixture.service (Fixture.zeros 3 1024) = inr A' /\
    row A 0 = row A' 2.
Proof.
  apply (forward_pass_rows_independent Fixture.artifact 1024 8 8 4
           (Fixture.zeros 1024 8) (Fixture.zeros 1 8) (Fixture.zeros 8 8)
           (Fixture.zeros 1 8) (Fixture.zeros 8 4) (Fixture.zeros 1 4)
           (Fixture.zeros 1 1024) (Fixture.zeros 3 1024) 0 2).
  - exact fixture_well_formed.
  - discriminate.
  - reflexivity.
  - reflexivity.
  - cbn; lia.
  - cbn; lia.
  - reflexivity.
Defined.

Lemma preprocess_output_shape_witness :
  exists X,
    @_preprocess_image Fixture.runtime Fixture.service (Bytes "scan") = inr X /\
    shape X = (1, 1024).
Proof.
  pose proof (@preprocess_decodable Fixture.runtime Fixture.artifact
                Fixture.unit_scaler (Bytes "scan") Fixture.gray_picture
                (fun _ _ => [128]) fixture_has_scaler fixture_decodes) as HX.
  eexists. split; [exact HX|].
  exact (proj1 (@preprocess_output_shape Fixture.runtime Fixture.service
                  (Bytes "scan") _ HX)).
Defined.

Lemma preprocess_errors_are_wrapped_witness :
  exists e msg,
    @_preprocess_image Fixture.runtime Fixture.service (Unsupported true) = inl e /\
    e = mkExn Exception ("Image preprocessing failed: " ++ msg)%string /\
    msg = "Invalid image data type. Expected bytes or PIL Image."%string.
Proof.
  eexists.
  destruct (@preprocess_errors_are_wrapped Fixture.runtime Fixture.service
              (Unsupported true) _ eq_refl) as [msg [He [_ Hmsg]]].
  exists msg. split; [reflexivity|]. split; [exact He|].
  apply (Hmsg true). reflexivity.
Defined.

Lemma unloaded_model_fails_in_preprocessing_witness :
  exists msg,
    @predict_brain_tumor Fixture.runtime (mkService PyNone) (Bytes "scan") =
      inr (failed_prediction
             (mkExn Exception ("Image preprocessing failed: " ++ msg)%string)) /\
    msg = "'NoneType' object is not subscriptable"%string.
Proof.
  destruct (@unloaded_model_fails_in_preprocessing Fixture.runtime
              (mkService PyNone) (Bytes "scan") eq_refl) as [msg [Hr Hmsg]].
  exists msg. split; [exact Hr|].
  exact (Hmsg Fixture.gray_picture (fun _ _ => [128]) fixture_decodes).
Defined.

Lemma successful_prediction_is_well_formed_witness :
  exists r,
    @predict_brain_tumor Fixture.runtime Fixture.service (Bytes "scan") = inr r /\
    success r = true /\
    Spec.vsum (probabilities r) = 1%R /\
    (0 < confidence r <= 1)%R.
Proof.
  destruct (@predict_well_formed Fixture.runtime Fixture.artifact 8 8 _ _ _ _ _ _
              Fixture.unit_scaler (Bytes "scan") Fixture.gray_picture
              (fun _ _ => [128])
              fixture_well_formed fixture_has_scaler fixture_decodes)
    as [r [Hr [Hs _]]].
  destruct (@successful_prediction_is_well_formed Fixture.runtime Fixture.service
              (Bytes "scan") r Hr Hs) as [_ [_ [_ [Hsum [Hconf _]]]]].
  exists r. exact (conj Hr (conj Hs (conj Hsum Hconf))).
Defined.

Lemma predicted_label_is_listed_witness :
  exists r t,
    @predict_brain_tumor Fixture.runtime Fixture.service (Bytes "scan") = inr r /\
    success r = true /\ tumor_type r = Some t /\
    In t (class_labels (get_model_info Fixture.service)).
Proof.
  destruct (@predict_well_formed Fixture.runtime Fixture.artifact 8 8 _ _ _ _ _ _
              Fixture.unit_scaler (Bytes "scan") Fixture.gray_picture
              (fun _ _ => [128])
              fixture_well_formed fixture_has_scaler fixture_decodes)
    as [r [Hr [Hs _]]].
  destruct (@successful_prediction_has_label Fixture.runtime Fixture.service
              (Bytes "scan") r Hr Hs) as [t Ht].
  exists r, t. split; [exact Hr|]. split; [exact Hs|]. split; [exact Ht|].
  exact (proj2 (proj2 (proj2 (@predicted_label_is_listed Fixture.runtime
                                Fixture.service (Bytes "scan") r t Hr Hs Ht)))).
Defined.

Lemma scaler_dimension_mismatch_fails_witness :
  has_scaler Fixture2.artifact_small_scaler 10 Fixture2.small_scaler /\
  exists msg,
    @predict_brain_tumor Fixture.runtime
      (mkService (PyDict Fixture2.artifact_small_scaler)) (Bytes "scan") =
    inr (failed_prediction
           (mkExn Exception ("Image preprocessing failed: " ++ msg)%string)).
Proof.
  assert (Hsc : has_scaler Fixture2.artifact_small_scaler 10 Fixture2.small_scaler)
    by (split; reflexivity).
  split; [exact Hsc|].
  destruct (@scaler_dimension_mismatch_fails Fixture.runtime
              Fixture2.artifact_small_scaler Fixture2.small_scaler 10
              (Bytes "scan") Fixture.gray_picture (fun _ _ => [128]) Hsc)
    as [msg [_ Hr]].
  - discriminate.
  - exact fixture_decodes.
  - exists msg. exact Hr.
Defined.

Lemma controller_predict_outcomes_witness :
  exists a status,
    @ImageController.predict_brain_tumor Fixture.runtime (mkService PyNone)
      (Bytes "scan") = inr (a, status) /\
    (ImageController.a_success a = true <-> status = 200).
Proof.
  destruct (@controller_predict_outcomes Fixture.runtime Fixture.http_down
              (mkService PyNone) (Bytes "scan")
              (or_introl (ex_intro _ "scan"%string eq_refl)))
    as [a [status [Hres [_ [_ Hiff]]]]].
  exists a, status. split; [exact Hres | exact Hiff].
Defined.

Lemma predict_and_save_outcomes_witness :
  exists a status,
    @ImageController.predict_and_save_brain_tumor Fixture.runtime Fixture.http_down
      (mkService PyNone) (Bytes "scan") (Some "img-1"%string) = inr (a, status) /\
    (ImageController.a_success a = true <-> status = 200).
Proof.
  destruct (@predict_and_save_outcomes Fixture.runtime Fixture.http_down
              (mkService PyNone) (Bytes "scan") (Some "img-1"%string)
              (or_introl (ex_intro _ "scan"%string eq_refl)))
    as [a [status [Hres [_ [_ [_ Hiff]]]]]].
  exists a, status. split; [exact Hres | exact Hiff].
Defined.


Lemma unmatched_update_gives_warning_witness :
  exists r,
    @predict_brain_tumor Fixture.runtime Fixture.service (Bytes "scan") = inr r /\
    success r = true /\
    @ImageController.predict_and_save_brain_tumor Fixture.runtime
      Fixture2.http_no_match Fixture.service (Bytes "scan") (Some "img-1"%string) =
    inr (ImageController.mkAnswer
           (Some "Brain tumor prediction completed but failed to save to database"%string)
           None true (Some r) None
           (Some "Prediction results could not be saved to database"%string),
         200).
Proof.
  destruct (@predict_well_formed Fixture.runtime Fixture.artifact 8 8 _ _ _ _ _ _
              Fixture.unit_scaler (Bytes "scan") Fixture.gray_picture
              (fun _ _ => [128])
              fixture_well_formed fixture_has_scaler fixture_decodes)
    as [r [Hr [Hs _]]].
  exists r. split; [exact Hr|]. split; [exact Hs|].
  exact (@unmatched_update_gives_warning Fixture.runtime Fixture2.http_no_match
           Fixture.service (Bytes "scan") "img-1" r
           (mkResponse 200 (inr (JList [])))
           eq_refl eq_refl Hr Hs eq_refl eq_refl eq_refl).
Defined.

Lemma get_all_images_masks_failures_witness :
  @ImageController.get_all_images Fixture.http_down Fixture2.rest_down
    Fixture2.builtins =
  inr (ImageController.mkCatalogAnswer (Some "Images retrieved successfully"%string)
         None true (Some (JList [])) (Some 0), 200).
Proof.
  apply (@get_all_images_masks_failures Fixture.http_down Fixture2.rest_down
           Fixture2.builtins).
  left. eexists. reflexivity.
Defined.

Lemma get_all_images_counts_witness :
  @ImageController.get_all_images Fixture.http_down Fixture2.rest_ok
    Fixture2.builtins =
  inr (ImageController.mkCatalogAnswer (Some "Images retrieved successfully"%string)
         None true (Some (JList [Fixture2.record])) (Some 1), 200).
Proof.
  exact (proj1 (@get_all_images_counts Fixture.http_down Fixture2.rest_ok
                  Fixture2.builtins
                  (mkResponse 200 (inr (JList [Fixture2.record])))
                  (JList [Fixture2.record]) eq_refl eq_refl eq_refl)
           [Fixture2.record] eq_refl).
Defined.

Lemma create_image_raises_on_bad_fields_witness :
  exists e,
    @ImageController.create_image Fixture.http_down Fixture2.rest_ok
      Fixture2.builtins (JObj [("name", JNull)]%string) = inl e /\
    exn_cls e = AttributeError.
Proof.
  apply (@create_image_raises_on_bad_fields Fixture.http_down Fixture2.rest_ok
           Fixture2.builtins (JObj [("name", JNull)]%string) eq_refl).
  right. exists [("name", JNull)]%string, JNull.
  split; [reflexivity|]. split; [reflexivity | discriminate].
Defined.

Lemma create_image_round_trip_witness :
  @ImageController.create_image Fixture.http_down Fixture2.rest_ok
    Fixture2.builtins (JObj [("name", JStr "  scan  "); ("url", JStr " ")]%string) =
  inr (ImageController.mkCatalogAnswer (Some "Image created successfully"%string)
         None true (Some Fixture2.record) None, 201).
Proof.
  apply (@create_image_round_trip Fixture.http_down Fixture2.rest_ok
           Fixture2.builtins [("name", JStr "  scan  "); ("url", JStr " ")]%string
           "  scan  " " "
           (mkResponse 201 (inr (JList [Fixture2.record]))) Fixture2.record []).
  - discriminate.
  - reflexivity.
  - reflexivity.
  - discriminate.
  - reflexivity.
  - reflexivity.
  - reflexivity.
Defined.


Lemma upload_record_and_cleanup_witness :
  @UploadController.upload_image Fixture.http_down Fixture2.rest_down
    Fixture2.builtins Fixture2.storage_ok (Some Fixture2.scan_file)
    (Some "left hemisphere"%string) =
  inr (UploadController.upload_failure "Failed to create image record in database", 500).
Proof.
  apply (@upload_record_and_cleanup Fixture.http_down Fixture2.rest_down
           Fixture2.builtins Fixture2.storage_ok Fixture2.scan_file
           (Some "left hemisphere"%string) (mkStorageResponse 200 "") JNull).
  - discriminate.
  - reflexivity.
  - reflexivity.
  - left. reflexivity.
  - reflexivity.
Defined.

End ExtraWitnesses.
